(** * download_pixi_packages: a shallow embedding and its properties

    The program reads a pixi lockfile, collects the conda package URLs it
    names and downloads each one into [<output>/<subdir>/<filename>].
    This file embeds [load_lockfile], [extract_conda_package_urls],
    [download_package] and [main] of [download_pixi_packages.py] and
    proves or refutes the statements of the specification about them.

    Conventions of the embedding:
    - a Python [str] is a [string]; [dict] with string keys is a
      [gmap string _]; a Python [set] of strings is a [gset string];
    - the file system is a finite map from path strings to nodes, and
      everything the operating system or the network decides (a failing
      [makedirs], an HTTP status, the iteration order of a hash set) is
      read from a [World];
    - [print] appends an event to the trace of the state; a network
      request appends [EHttpGet]. *)

From Stdlib Require Import ZArith String Ascii List Lia Bool.
From stdpp Require Import base strings gmap list sets.

Set Warnings "-register-all,-clear-no-such-hyp".
Open Scope string_scope.
Open Scope list_scope.

(* ===================================================================== *)
(** * Python string and path primitives *)
(* ===================================================================== *)

Module PyStr.

(** [bool(s)] of a string: false exactly on the empty string. *)
Definition nonempty (s : string) : bool :=
  match s with
  | EmptyString => false
  | String _ _ => true
  end.

(** [s.startswith(p)]. *)
Fixpoint startswith (s p : string) : bool :=
  match p with
  | EmptyString => true
  | String a p' =>
      match s with
      | EmptyString => false
      | String b s' => Ascii.eqb a b && startswith s' p'
      end
  end.

(** [s.endswith(c)] for a one-character [c]. *)
Fixpoint endswith_char (s : string) (c : ascii) : bool :=
  match s with
  | EmptyString => false
  | String a EmptyString => Ascii.eqb a c
  | String _ r => endswith_char r c
  end.

(** [c in s]. *)
Fixpoint contains (c : ascii) (s : string) : bool :=
  match s with
  | EmptyString => false
  | String a r => Ascii.eqb a c || contains c r
  end.

(** [s.split(sep)] for a one-character separator: never the empty list. *)
Fixpoint split (sep : ascii) (s : string) : list string :=
  match s with
  | EmptyString => [EmptyString]
  | String a r =>
      if Ascii.eqb a sep then EmptyString :: split sep r
      else match split sep r with
           | [] => [String a EmptyString]
           | p :: ps => String a p :: ps
           end
  end.

(** [s.rfind(c)]: the index of the last occurrence, [-1] when absent. *)
Fixpoint rfind (c : ascii) (s : string) : Z :=
  match s with
  | EmptyString => (-1)%Z
  | String a r =>
      let i := rfind c r in
      if (0 <=? i)%Z then (i + 1)%Z
      else if Ascii.eqb a c then 0%Z else (-1)%Z
  end.

(** The slice [s[n:]]. *)
Fixpoint drop (n : nat) (s : string) : string :=
  match n, s with
  | O, _ => s
  | S _, EmptyString => EmptyString
  | S n', String _ r => drop n' r
  end.

(** The longest prefix of [s] without a character satisfying [stop],
    and what follows it. *)
Fixpoint cut (stop : ascii -> bool) (s : string) : string * string :=
  match s with
  | EmptyString => (EmptyString, EmptyString)
  | String a r =>
      if stop a then (EmptyString, s)
      else let '(h, t) := cut stop r in (String a h, t)
  end.

Fixpoint forallb (p : ascii -> bool) (s : string) : bool :=
  match s with
  | EmptyString => true
  | String a r => p a && forallb p r
  end.

Fixpoint filter (p : ascii -> bool) (s : string) : string :=
  match s with
  | EmptyString => EmptyString
  | String a r => if p a then String a (filter p r) else filter p r
  end.

Fixpoint lstrip (p : ascii -> bool) (s : string) : string :=
  match s with
  | EmptyString => EmptyString
  | String a r => if p a then lstrip p r else s
  end.

Definition is_upper (a : ascii) : bool :=
  let n := nat_of_ascii a in (65 <=? n)%nat && (n <=? 90)%nat.
Definition is_lower (a : ascii) : bool :=
  let n := nat_of_ascii a in (97 <=? n)%nat && (n <=? 122)%nat.
Definition is_digit (a : ascii) : bool :=
  let n := nat_of_ascii a in (48 <=? n)%nat && (n <=? 57)%nat.
Definition is_alpha (a : ascii) : bool := is_upper a || is_lower a.

Definition lower_char (a : ascii) : ascii :=
  if is_upper a then ascii_of_nat (nat_of_ascii a + 32) else a.

Fixpoint lower (s : string) : string :=
  match s with
  | EmptyString => EmptyString
  | String a r => String (lower_char a) (lower r)
  end.

End PyStr.

(** ** [posixpath] *)

Module PosixPath.

Definition sep : ascii := "/"%char.

(** [os.path.basename(p)]: [i = p.rfind(sep) + 1; return p[i:]]. *)
Definition basename (p : string) : string :=
  PyStr.drop (Z.to_nat (PyStr.rfind sep p + 1)) p.

(** [os.path.join(a, b)]:
    [if b.startswith(sep): path = b
     elif not path or path.endswith(sep): path += b
     else: path += sep + b]. *)
Definition join (a b : string) : string :=
  if PyStr.startswith b "/" then b
  else if negb (PyStr.nonempty a) || PyStr.endswith_char a sep then a +:+ b
  else a +:+ "/" +:+ b.

(** What [join] puts in front of a second argument that does not start
    with the separator: [join a b = join_prefix a +:+ b]. *)
Definition join_prefix (a : string) : string :=
  if negb (PyStr.nonempty a) || PyStr.endswith_char a sep then a
  else a +:+ "/".

End PosixPath.

(** ** [urllib.parse.urlparse(url).path]

    The repository calls the standard-library parser and reads only the
    [path] field of its result.  The theorems below take the parser as a
    parameter; this definition follows [urlsplit] and [urlparse] of
    CPython 3.11 on ASCII input and is the instance at which the examples
    and counterexamples are evaluated.  [None] stands for the
    [ValueError] of an unbalanced bracket in the host part.  Not covered:
    the validation of a bracketed IPv6 host and the NFKC check of a
    non-ASCII host, which can only turn a result into a [ValueError]. *)

Module UrlParse.

Definition is_c0_or_space (a : ascii) : bool := (nat_of_ascii a <=? 32)%nat.

Definition is_unsafe (a : ascii) : bool :=
  let n := nat_of_ascii a in (n =? 9)%nat || (n =? 10)%nat || (n =? 13)%nat.

Definition is_scheme_char (a : ascii) : bool :=
  PyStr.is_alpha a || PyStr.is_digit a
  || Ascii.eqb a "+" || Ascii.eqb a "-" || Ascii.eqb a ".".

Definition uses_params : list string :=
  [""; "ftp"; "hdl"; "prospero"; "http"; "imap"; "https"; "shttp"; "rtsp";
   "rtspu"; "sip"; "sips"; "mms"; "sftp"; "tel"].

Definition is_char (c : ascii) : ascii -> bool := fun a => Ascii.eqb a c.

(** The scheme split of [urlsplit]: [(scheme, rest)]. *)
Definition split_scheme (url : string) : string * string :=
  let '(h, t) := PyStr.cut (is_char ":") url in
  match h, t with
  | String a _, String _ rest =>
      if PyStr.is_alpha a && PyStr.forallb is_scheme_char h
      then (PyStr.lower h, rest)
      else (EmptyString, url)
  | _, _ => (EmptyString, url)
  end.

(** [_splitnetloc(url, 2)] when [url[:2] == '//']: [(netloc, rest)]. *)
Definition split_netloc (url : string) : string * string :=
  match url with
  | String "/" (String "/" r) =>
      PyStr.cut (fun a => is_char "/" a || is_char "?" a || is_char "#" a) r
  | _ => (EmptyString, url)
  end.

(** [_splitparams(url)[0]]: cut at the first [;] after the last [/]. *)
Definition strip_params (url : string) : string :=
  let i := Z.to_nat (PyStr.rfind "/" url + 1) in
  let dir := String.substring 0 i url in
  dir +:+ fst (PyStr.cut (is_char ";") (PyStr.drop i url)).

Definition urlparse_path (url0 : string) : option string :=
  let url := PyStr.filter (fun a => negb (is_unsafe a))
               (PyStr.lstrip is_c0_or_space url0) in
  let '(scheme, url) := split_scheme url in
  let '(netloc, url) := split_netloc url in
  if xorb (PyStr.contains "[" netloc) (PyStr.contains "]" netloc) then None
  else
    let url := fst (PyStr.cut (is_char "#") url) in
    let url := fst (PyStr.cut (is_char "?") url) in
    if bool_decide (scheme ∈ uses_params) && PyStr.contains ";" url
    then Some (strip_params url)
    else Some url.

End UrlParse.


(* ===================================================================== *)
(** * Data model *)
(* ===================================================================== *)

(** What [yaml.safe_load] can build.  [YFloat m e] is the finite float
    [m * 2^e]; [YOther] stands for the remaining objects (dates, binary
    data, sets, infinities), which are neither strings, lists, mappings
    nor equal to an integer.  Mapping keys are strings: the program only
    ever looks a string key up. *)
Inductive yaml : Type :=
  | YNull
  | YBool (b : bool)
  | YInt (z : Z)
  | YFloat (m e : Z)
  | YStr (s : string)
  | YList (l : list yaml)
  | YMap (d : gmap string yaml)
  | YOther (tag : string).

(** [v == n] for a Python integer [n]. *)
Definition py_eq_int (v : yaml) (n : Z) : bool :=
  match v with
  | YInt z => (z =? n)%Z
  | YBool b => ((if b then 1 else 0) =? n)%Z
  | YFloat m e =>
      if (0 <=? e)%Z then (m * 2 ^ e =? n)%Z else (m =? n * 2 ^ (- e))%Z
  | _ => false
  end.

(** Everything the program prints, one constructor per message (the
    lines of the final summary are one message). *)
Inductive message : Type :=
  (* load_lockfile *)
  | MsgLockfileNotFound (lockfile_path : string)
  | MsgLockfileNotAFile (lockfile_path : string)
  | MsgLockfileNotADict (lockfile_path : string)
  | MsgVersionWarning (file_version : option yaml)
  | MsgYamlError (lockfile_path : string)
  | MsgUnexpectedReadError (lockfile_path : string)
  (* extract_conda_package_urls *)
  | MsgSkipMalformed (url : yaml)
  | MsgCheckingEnvironments
  | MsgNoUrlsFound
  (* download_package *)
  | MsgNoFilename (url : string)
  | MsgNoSubdir (path filename : string)
  | MsgCreatedPlatformDir (dir : string)
  | MsgPlatformDirError (dir : string)
  | MsgSkipExisting (filename dir : string)
  | MsgDownloading (filename dir url : string)
  | MsgDownloaded (filename dir : string)
  | MsgHTTPError (filename : string) (status : Z)
  | MsgConnectionError (filename : string)
  | MsgTimeout (filename : string)
  | MsgRequestError (filename : string)
  | MsgUnexpected (url : string)
  | MsgZeroBytes (filename : string)
  | MsgCleanedUp (output_path : string)
  | MsgCleanupError (output_path : string)
  (* main *)
  | MsgCreatedBaseDir (dir : string)
  | MsgBaseDirError (dir : string)
  | MsgNotADirectory (dir : string)
  | MsgNotWritable (dir : string)
  | MsgLoading (lockfile : string)
  | MsgExtracting
  | MsgNothingToDo
  | MsgFound (n : nat)
  | MsgProcessing (i n : nat)
  | MsgSummary (total success failure : nat)
  | MsgSomeFailed
  | MsgAllProcessed.

(** Observable events: a line on stdout, a line on stderr, one HTTP GET. *)
Inductive event : Type :=
  | EStdout (m : message)
  | EStderr (m : message)
  | EHttpGet (url : string).

(** A path names a directory, a regular file with its bytes, or something
    else (device, socket, pipe). *)
Inductive node : Type :=
  | Dir
  | File (content : string)
  | Special.

Record state : Type := mkState {
  fs : gmap string node;
  trace : list event
}.

(** The exceptions [download_package] handles, by the [except] clause
    that catches them. *)
Inductive exn : Type :=
  | HTTPError (status : Z)
  | ConnectionError
  | Timeout
  | RequestException
  | OtherException.

(** What the server does for one GET: [requests.get] raises, or a response
    arrives with a status and a body streamed in chunks, the stream
    possibly breaking after the chunks listed. *)
Inductive http_result : Type :=
  | GetRaises (e : exn)
  | Response (status : Z) (chunks : list string) (stream_err : option exn).

(** What lies outside the program during one run.  [set_iter] is the
    iteration order of a Python [set] of strings: some enumeration of its
    elements without repetition, fixed by the hash seed of the process. *)
Record World : Type := mkWorld {
  http_get : string -> http_result;
  makedirs_ok : string -> bool;
  open_wb_ok : string -> bool;
  remove_ok : string -> bool;
  access_w_ok : string -> bool;
  read_ok : string -> bool;
  set_iter : gset string -> list string;
  set_iter_perm : forall X : gset string, set_iter X ≡ₚ elements X
}.

(** The two library functions whose result the program consumes:
    [urllib.parse.urlparse(url).path] ([None]: the parser raised) and
    [yaml.safe_load] on the text of a file ([None]: [yaml.YAMLError]). *)
Class Library : Type := mkLibrary {
  urlparse_path : string -> option string;
  yaml_safe_load : string -> option yaml
}.

(** [sys.exit(code)] or a normal return. *)
Inductive result (A : Type) : Type :=
  | Done (a : A)
  | Exited (code : nat).
Arguments Done {A} a.
Arguments Exited {A} code.

Record Args : Type := mkArgs {
  lockfile : string;
  output_dir : string;
  force : bool
}.

(** The outcome of the [try] block of [download_package]. *)
Inductive outcome : Type :=
  | Returned (b : bool)
  | Raised (e : exn).

(* ===================================================================== *)
(** * The program *)
(* ===================================================================== *)

Definition SUPPORTED_LOCKFILE_VERSION : Z := 6.

(** ** State primitives *)

Definition log (e : event) (s : state) : state :=
  {| fs := fs s; trace := trace s ++ [e] |}.

Definition emit (es : list event) (s : state) : state :=
  {| fs := fs s; trace := trace s ++ es |}.

(** [os.path.exists], [os.path.isfile], [os.path.isdir]. *)
Definition path_exists (s : state) (p : string) : bool :=
  match fs s !! p with Some _ => true | None => false end.
Definition path_isfile (s : state) (p : string) : bool :=
  match fs s !! p with Some (File _) => true | _ => false end.
Definition path_isdir (s : state) (p : string) : bool :=
  match fs s !! p with Some Dir => true | _ => false end.

(** [os.path.getsize] of a regular file. *)
Definition path_getsize (s : state) (p : string) : nat :=
  match fs s !! p with Some (File c) => String.length c | _ => 0 end.

Definition fs_put (p : string) (n : node) (s : state) : state :=
  {| fs := <[p := n]> (fs s); trace := trace s |}.
Definition fs_remove (p : string) (s : state) : state :=
  {| fs := delete p (fs s); trace := trace s |}.

(** [open(p, "wb")] inside directory [dir]: the world may refuse, [dir]
    must be a directory and [p] must not be one. *)
Definition can_open_wb (w : World) (s : state) (dir p : string) : bool :=
  open_wb_ok w p && path_isdir s dir && negb (path_isdir s p).

(** The effect of [open(p, "wb")] followed by writes adding up to
    [content]: a regular file is created or truncated and filled; a
    device or pipe stays what it is. *)
Definition fs_write (p content : string) (s : state) : state :=
  match fs s !! p with
  | Some Special => s
  | _ => fs_put p (File content) s
  end.

(** ** [load_lockfile] (lines 38-73) *)

Definition version_supported (data : gmap string yaml) : bool :=
  match data !! "version" with
  | Some v => py_eq_int v SUPPORTED_LOCKFILE_VERSION
  | None => false
  end.

Definition load_lockfile `{Library} (w : World) (lockfile_path : string)
    (s : state) : result (gmap string yaml) * state :=
  match fs s !! lockfile_path with
  | None => (Exited 1, log (EStderr (MsgLockfileNotFound lockfile_path)) s)
  | Some (File text) =>
      if read_ok w lockfile_path then
        match yaml_safe_load text with
        | Some (YMap data) =>
            if version_supported data then (Done data, s)
            else
              (Done data,
               log (EStderr (MsgVersionWarning (data !! "version"))) s)
        | Some _ =>
            (Exited 1, log (EStderr (MsgLockfileNotADict lockfile_path)) s)
        | None => (Exited 1, log (EStderr (MsgYamlError lockfile_path)) s)
        end
      else
        (Exited 1, log (EStderr (MsgUnexpectedReadError lockfile_path)) s)
  | Some _ => (Exited 1, log (EStderr (MsgLockfileNotAFile lockfile_path)) s)
  end.

(** ** [extract_conda_package_urls] (lines 76-123) *)

(** The body of the loop over the top-level [packages] list
    (lines 82-90): the set so far and the warnings so far. *)
Definition primary_step (acc : gset string * list event)
    (package_info : yaml) : gset string * list event :=
  match package_info with
  | YMap d =>
      match d !! "conda" with
      | Some url =>
          match url with
          | YStr u =>
              if PyStr.startswith u "http" then (acc.1 ∪ {[u]}, acc.2)
              else (acc.1, acc.2 ++ [EStderr (MsgSkipMalformed url)])
          | _ => (acc.1, acc.2 ++ [EStderr (MsgSkipMalformed url)])
          end
      | None => acc
      end
  | _ => acc
  end.

(** Lines 80-90. *)
Definition primary (lockfile_data : gmap string yaml)
    : gset string * list event :=
  match lockfile_data !! "packages" with
  | Some (YList packages) => foldl primary_step (∅, []) packages
  | _ => (∅, [])
  end.

(** The innermost loop body of the fallback (lines 114-117): silent. *)
Definition fallback_step (urls : gset string) (pkg_url_map : yaml)
    : gset string :=
  match pkg_url_map with
  | YMap d =>
      match d !! "conda" with
      | Some (YStr u) => if PyStr.startswith u "http" then urls ∪ {[u]} else urls
      | _ => urls
      end
  | _ => urls
  end.

(** Lines 112-117, for one platform. *)
Definition fallback_platform (urls : gset string)
    (platform_packages_list : yaml) : gset string :=
  match platform_packages_list with
  | YList l => foldl fallback_step urls l
  | _ => urls
  end.

(** Lines 106-117, for one environment. *)
Definition fallback_env (urls : gset string) (env_data : yaml)
    : gset string :=
  match env_data with
  | YMap d =>
      match d !! "packages" with
      | Some (YMap platforms) =>
          map_fold (fun _ l acc => fallback_platform acc l) urls platforms
      | _ => urls
      end
  | _ => urls
  end.

(** Lines 105-117 on the [environments] mapping. *)
Definition fallback (environments : gmap string yaml) : gset string :=
  map_fold (fun _ env_data acc => fallback_env acc env_data) ∅ environments.

(** [not urls] for a set. *)
Definition set_is_empty (urls : gset string) : bool := bool_decide (urls = ∅).

Definition extract_conda_package_urls (w : World)
    (lockfile_data : gmap string yaml) : list string * list event :=
  let '(urls, out) := primary lockfile_data in
  let '(urls, out) :=
    if set_is_empty urls then
      match lockfile_data !! "environments" with
      | Some (YMap environments) =>
          (fallback environments, out ++ [EStderr MsgCheckingEnvironments])
      | _ => (urls, out)
      end
    else (urls, out) in
  let out :=
    if set_is_empty urls then out ++ [EStderr MsgNoUrlsFound] else out in
  (set_iter w urls, out).

(** ** [download_package] (lines 126-224) *)

(** [[comp for comp in path.split("/") if comp]]. *)
Definition path_components (path : string) : list string :=
  List.filter PyStr.nonempty (PyStr.split "/" path).

(** [path_components[-2]] when there are at least two components. *)
Definition second_to_last (path_components : list string) : string :=
  nth (length path_components - 2) path_components "".

(** [response.raise_for_status()] raises on 4xx and 5xx. *)
Definition raises_for_status (status : Z) : bool :=
  (400 <=? status)%Z && (status <? 600)%Z.

(** Lines 161-170: whether the directory is there afterwards, and the
    state after the message printed. *)
Definition ensure_platform_dir (w : World) (platform_output_dir : string)
    (s : state) : bool * state :=
  if path_exists s platform_output_dir then (true, s)
  else if makedirs_ok w platform_output_dir then
    (true,
     log (EStdout (MsgCreatedPlatformDir platform_output_dir))
       (fs_put platform_output_dir Dir s))
  else
    (false, log (EStderr (MsgPlatformDirError platform_output_dir)) s).

(** Lines 180-189: the request, the status check and the streaming of
    the body into [output_path]; how they end and the state. *)
Definition fetch_to (w : World)
    (url filename platform_output_dir output_path : string) (s : state)
    : outcome * state :=
  let s1 :=
    log (EHttpGet url)
      (log (EStdout (MsgDownloading filename platform_output_dir url)) s) in
  match http_get w url with
  | GetRaises e => (Raised e, s1)
  | Response status chunks stream_err =>
      if raises_for_status status then (Raised (HTTPError status), s1)
      else if can_open_wb w s1 platform_output_dir output_path then
        let s2 := fs_write output_path (String.concat "" chunks) s1 in
        match stream_err with
        | Some e => (Raised e, s2)
        | None =>
            (Returned true,
             log (EStdout (MsgDownloaded filename platform_output_dir)) s2)
        end
      else (Raised OtherException, s1)
  end.

(** The [try] block (lines 132-189): how it ends, the values of
    [output_path] and [filename] at that point, and the state. *)
Definition try_block `{Library} (w : World) (url base_output_dir : string)
    (force_download : bool) (s : state)
    : outcome * string * string * state :=
  match urlparse_path url with
  | None => (Raised OtherException, "", "", s)
  | Some path =>
      let filename := PosixPath.basename path in
      if negb (PyStr.nonempty filename) then
        (Returned false, "", filename, log (EStderr (MsgNoFilename url)) s)
      else
        let comps := path_components path in
        if (length comps <? 2)%nat then
          (Returned false, "", filename,
           log (EStderr (MsgNoSubdir path filename)) s)
        else
          let platform_subdir_name := second_to_last comps in
          let platform_output_dir :=
            PosixPath.join base_output_dir platform_subdir_name in
          match ensure_platform_dir w platform_output_dir s with
          | (false, s1) => (Returned false, "", filename, s1)
          | (true, s1) =>
              let output_path := PosixPath.join platform_output_dir filename in
              if negb force_download && path_exists s1 output_path then
                (Returned true, output_path, filename,
                 log (EStdout (MsgSkipExisting filename platform_output_dir))
                   s1)
              else
                let '(o, s2) :=
                  fetch_to w url filename platform_output_dir output_path s1 in
                (o, output_path, filename, s2)
          end
  end.

(** The message of the [except] clause that catches [e] (lines 191-206). *)
Definition handler_message (e : exn) (filename url : string) : message :=
  match e with
  | HTTPError status => MsgHTTPError filename status
  | ConnectionError => MsgConnectionError filename
  | Timeout => MsgTimeout filename
  | RequestException => MsgRequestError filename
  | OtherException => MsgUnexpected url
  end.

(** Lines 209-223. *)
Definition cleanup (w : World) (output_path filename : string) (s : state)
    : state :=
  if PyStr.nonempty output_path && path_exists s output_path
     && path_isfile s output_path
  then
    let s1 :=
      if (path_getsize s output_path =? 0)%nat
      then log (EStderr (MsgZeroBytes filename)) s else s in
    if remove_ok w output_path then
      log (EStderr (MsgCleanedUp output_path)) (fs_remove output_path s1)
    else log (EStderr (MsgCleanupError output_path)) s1
  else s.

Definition download_package `{Library} (w : World)
    (url base_output_dir : string) (force_download : bool) (s : state)
    : bool * state :=
  match try_block w url base_output_dir force_download s with
  | (Returned b, _, _, s1) => (b, s1)
  | (Raised e, output_path, filename, s1) =>
      (false,
       cleanup w output_path filename
         (log (EStderr (handler_message e filename url)) s1))
  end.

(** ** [main] (lines 227-310) *)

(** Lines 232-254: the output directory is created or checked. *)
Definition prepare_output_dir (w : World) (output_dir : string) (s : state)
    : result unit * state :=
  let '(r, s1) :=
    if negb (path_exists s output_dir) then
      if makedirs_ok w output_dir then
        (Done tt,
         log (EStdout (MsgCreatedBaseDir output_dir))
           (fs_put output_dir Dir s))
      else (Exited 1, log (EStderr (MsgBaseDirError output_dir)) s)
    else if negb (path_isdir s output_dir) then
      (Exited 1, log (EStderr (MsgNotADirectory output_dir)) s)
    else (Done tt, s) in
  match r with
  | Exited c => (Exited c, s1)
  | Done _ =>
      if negb (access_w_ok w output_dir) then
        (Exited 1, log (EStderr (MsgNotWritable output_dir)) s1)
      else (Done tt, s1)
  end.

(** The loop of lines 272-292: [i] is the number printed for the next
    URL, [n] is [len(conda_urls)]; the result carries [success_count]
    and [failure_count]. *)
Fixpoint process_urls `{Library} (w : World) (base_output_dir : string)
    (force_download : bool) (conda_urls : list string) (i n : nat)
    (success_count failure_count : nat) (s : state) : nat * nat * state :=
  match conda_urls with
  | [] => (success_count, failure_count, s)
  | url :: rest =>
      let s1 := log (EStdout (MsgProcessing i n)) s in
      let '(is_successful_or_skipped, s2) :=
        download_package w url base_output_dir force_download s1 in
      if is_successful_or_skipped then
        process_urls w base_output_dir force_download rest (S i) n
          (S success_count) failure_count s2
      else
        process_urls w base_output_dir force_download rest (S i) n
          success_count (S failure_count) s2
  end.

(** Lines 262-309, after the URLs were extracted: the exit code. *)
Definition fetch_all `{Library} (w : World) (a : Args)
    (conda_urls : list string) (s : state) : nat * state :=
  match conda_urls with
  | [] => (0, log (EStdout MsgNothingToDo) s)
  | _ =>
      let n := length conda_urls in
      let s1 := log (EStdout (MsgFound n)) s in
      let '(success_count, failure_count, s2) :=
        process_urls w (output_dir a) (force a) conda_urls 1 n 0 0 s1 in
      let s3 := log (EStdout (MsgSummary n success_count failure_count)) s2 in
      if (0 <? failure_count)%nat then (1, log (EStderr MsgSomeFailed) s3)
      else (0, log (EStdout MsgAllProcessed) s3)
  end.

(** The whole of [main]: the exit code of the process and the final
    state. *)
Definition main `{Library} (w : World) (a : Args) (s : state) : nat * state :=
  match prepare_output_dir w (output_dir a) s with
  | (Exited c, s1) => (c, s1)
  | (Done _, s1) =>
      let s2 := log (EStdout (MsgLoading (lockfile a))) s1 in
      match load_lockfile w (lockfile a) s2 with
      | (Exited c, s3) => (c, s3)
      | (Done lockfile_data, s3) =>
          let s4 := log (EStdout MsgExtracting) s3 in
          let '(conda_urls, out) :=
            extract_conda_package_urls w lockfile_data in
          fetch_all w a conda_urls (emit out s4)
      end
  end.

(** ** Notions used in the statements *)

(** Lines 134-157 get past both [return False]: the file name is not
    empty and there are at least two path components. *)
Definition derivable (path : string) : bool :=
  PyStr.nonempty (PosixPath.basename path)
  && (2 <=? length (path_components path))%nat.

(** The value of [platform_output_dir] at line 160. *)
Definition platform_dir (base_output_dir path : string) : string :=
  PosixPath.join base_output_dir (second_to_last (path_components path)).

(** The value of [output_path] at line 172. *)
Definition destination (base_output_dir path : string) : string :=
  PosixPath.join (platform_dir base_output_dir path) (PosixPath.basename path).

(** The destination [download_package] derives for [url], when it does. *)
Definition destination_of `{Library} (base_output_dir url : string)
    : option string :=
  match urlparse_path url with
  | Some path =>
      if derivable path then Some (destination base_output_dir path) else None
  | None => None
  end.

(** The destination of [url] and its directory are on disk. *)
Definition cached `{Library} (base_output_dir url : string) (s : state)
    : bool :=
  match urlparse_path url with
  | Some path =>
      derivable path
      && path_exists s (platform_dir base_output_dir path)
      && path_exists s (destination base_output_dir path)
  | None => false
  end.

(** The URLs requested from the network so far, oldest first. *)
Definition requests (s : state) : list string :=
  omap (fun e => match e with EHttpGet u => Some u | _ => None end) (trace s).

(** The specification's reading of the loop of [main]: every URL is
    attempted in turn on the state the previous attempt left, and the
    outcome of each is recorded next to it. *)
Fixpoint attempt_each `{Library} (w : World) (base_output_dir : string)
    (force_download : bool) (conda_urls : list string) (i n : nat)
    (s : state) : list (string * bool) * state :=
  match conda_urls with
  | [] => ([], s)
  | url :: rest =>
      let '(ok, s1) :=
        download_package w url base_output_dir force_download
          (log (EStdout (MsgProcessing i n)) s) in
      let '(rs, s2) :=
        attempt_each w base_output_dir force_download rest (S i) n s1 in
      ((url, ok) :: rs, s2)
  end.

(** Lines 232-257 of [main]: everything before the extraction.  It ends
    in [sys.exit(1)] or with the parsed lockfile. *)
Definition setup `{Library} (w : World) (a : Args) (s : state)
    : result (gmap string yaml) * state :=
  match prepare_output_dir w (output_dir a) s with
  | (Exited c, s1) => (Exited c, s1)
  | (Done _, s1) =>
      load_lockfile w (lockfile a) (log (EStdout (MsgLoading (lockfile a))) s1)
  end.

(** The state in which the loop of [main] starts on [lockfile_data],
    [s] being the state [setup] left. *)
Definition loop_start (w : World) (lockfile_data : gmap string yaml)
    (s : state) : state :=
  let '(conda_urls, out) := extract_conda_package_urls w lockfile_data in
  log (EStdout (MsgFound (length conda_urls)))
    (emit out (log (EStdout MsgExtracting) s)).

(** The URL an entry contributes under the rule of lines 82-85 and
    114-117: a mapping whose [conda] field is a string starting with
    [http]. *)
Definition entry_url (e : yaml) : option string :=
  match e with
  | YMap d =>
      match d !! "conda" with
      | Some (YStr u) => if PyStr.startswith u "http" then Some u else None
      | _ => None
      end
  | _ => None
  end.

(** The entries of the top-level [packages] list, none when the field is
    missing or not a list. *)
Definition primary_entries (lockfile_data : gmap string yaml) : list yaml :=
  match lockfile_data !! "packages" with
  | Some (YList packages) => packages
  | _ => []
  end.

(** The [conda] value of an entry that has one which is not accepted. *)
Definition entry_rejected (e : yaml) : option yaml :=
  match e with
  | YMap d =>
      match d !! "conda" with
      | Some v =>
          match entry_url e with Some _ => None | None => Some v end
      | None => None
      end
  | _ => None
  end.


(** The URLs found under [environments], as the specification describes
    the nesting: environment, [packages], platform, entry. *)
Definition in_environments (environments : gmap string yaml) (u : string)
    : Prop :=
  exists env_name env_data platforms platform l e,
    environments !! env_name = Some (YMap env_data)
    /\ env_data !! "packages" = Some (YMap platforms)
    /\ platforms !! platform = Some (YList l)
    /\ e ∈ l /\ entry_url e = Some u.

(** What the specification calls the Package URL Set of a document: the
    URLs of the top-level entries, or, when there is none, the URLs found
    under [environments]. *)
Definition discovered (lockfile_data : gmap string yaml) (u : string)
    : Prop :=
  (exists e, e ∈ primary_entries lockfile_data /\ entry_url e = Some u)
  \/ ((forall e, e ∈ primary_entries lockfile_data -> entry_url e = None)
      /\ exists environments,
           lockfile_data !! "environments" = Some (YMap environments)
           /\ in_environments environments u).


(** A line on stderr. *)
Definition is_stderr (e : event) : bool :=
  match e with EStderr _ => true | _ => false end.

(** The progress lines printed so far ([--- Processing package i/n ---]),
    oldest first. *)
Definition progress_lines (s : state) : list (nat * nat) :=
  omap (fun e => match e with
                 | EStdout (MsgProcessing i n) => Some (i, n)
                 | _ => None
                 end) (trace s).

(* ===================================================================== *)
(** * Example data *)
(* ===================================================================== *)

Module Ex.

(** A world seen from one run: every server answers as [get] says, the
    operating system refuses exactly the removals in [no_remove], and a
    set is iterated in the order of [elements]. *)
Definition world (get : string -> http_result) (no_remove : list string)
    : World :=
  {| http_get := get;
     makedirs_ok := fun _ => true;
     open_wb_ok := fun _ => true;
     remove_ok := fun p => negb (bool_decide (p ∈ no_remove));
     access_w_ok := fun _ => true;
     read_ok := fun _ => true;
     set_iter := elements;
     set_iter_perm := fun X => Permutation_refl (elements X) |}.

(** The same, with the lockfile unreadable (permission denied). *)
Definition world_unreadable : World :=
  {| http_get := fun _ => GetRaises ConnectionError;
     makedirs_ok := fun _ => true;
     open_wb_ok := fun _ => true;
     remove_ok := fun _ => true;
     access_w_ok := fun _ => true;
     read_ok := fun _ => false;
     set_iter := elements;
     set_iter_perm := fun X => Permutation_refl (elements X) |}.

(** A world whose sets are iterated in the opposite order. *)
Definition world_reversed (get : string -> http_result) : World :=
  {| http_get := get;
     makedirs_ok := fun _ => true;
     open_wb_ok := fun _ => true;
     remove_ok := fun _ => true;
     access_w_ok := fun _ => true;
     read_ok := fun _ => true;
     set_iter := fun X => reverse (elements X);
     set_iter_perm := fun X => reverse_Permutation (elements X) |}.

Definition serve_all : string -> http_result :=
  fun _ => Response 200 ["PK"; "data"] None.
Definition serve_404 : string -> http_result :=
  fun _ => Response 404 [] None.

Definition foo_url : string := "https://repo.example/linux-64/foo-1.0-0.conda".
Definition bar_url : string := "https://repo.example/noarch/bar-2.0-0.conda".

(** A second channel serving a file of the same name for the same
    platform. *)
Definition forge_foo_url : string :=
  "https://conda.anaconda.org/conda-forge/linux-64/foo-1.0-0.conda".

(** A URL with a single path segment. *)
Definition flat_url : string := "https://repo.example/foo-1.0-0.conda".

Definition entry (u : string) : yaml := YMap {["conda" := YStr u]}.

Definition doc_collide : gmap string yaml :=
  {["packages" := YList [entry foo_url; entry forge_foo_url]]}.

(** One environment [default] with one platform [linux-64]. *)
Definition environments_of (l : list yaml) : yaml :=
  YMap {["default" := YMap {["packages" := YMap {["linux-64" := YList l]}]}]}.

(** Entries of every unexpected shape, at the top level and under
    [environments]. *)
Definition doc_silent : gmap string yaml :=
  {["packages" := YList [YStr "junk"; YMap {["name" := YStr "foo"]}];
    "environments" :=
      environments_of [entry "ftp://repo.example/linux-64/foo.conda"; YInt 3]]}.

(** A rejected [conda] value at the top level. *)
Definition doc_rejected : gmap string yaml :=
  {["packages" := YList [entry "ftp://repo.example/linux-64/foo.conda";
                         entry foo_url]]}.

(** URLs at the top level and, different ones, under [environments]. *)
Definition doc_both : gmap string yaml :=
  {["packages" := YList [entry foo_url];
    "environments" := environments_of [entry bar_url]]}.

Definition doc_env_only : gmap string yaml :=
  {["environments" := environments_of [entry bar_url; entry bar_url]]}.

(** Four spellings a normalising client would identify. *)
Definition doc_variants : gmap string yaml :=
  {["packages" :=
      YList [entry "https://repo.example/noarch/x.conda";
             entry "https://repo.example/noarch/x.conda/";
             entry "https://repo.example/noarch/x.conda?";
             entry "https://REPO.example/noarch/x.conda";
             entry "https://repo.example/noarch/x.conda"]]}.

Definition doc_garbage : gmap string yaml :=
  {["packages" := YList [entry "httpgarbage"]]}.

(** [packages: [{conda: foo_url}, {conda: bar_url}]]. *)
Definition doc_foo_bar : gmap string yaml :=
  {["packages" := YList [entry foo_url; entry bar_url]]}.


Definition doc_foo : gmap string yaml :=
  <["version" := YInt 6]> {["packages" := YList [entry foo_url]]}.

(** The texts of the lockfiles used below and what [yaml.safe_load]
    returns on them; any other text is taken to be malformed. *)
Definition lock_foo_text : string :=
  "version: 6
packages:
- conda: https://repo.example/linux-64/foo-1.0-0.conda
".

Definition lock_list_text : string :=
  "- just
- a list
".

Definition yaml_table (text : string) : option yaml :=
  if String.eqb text lock_foo_text then Some (YMap doc_foo)
  else if String.eqb text lock_list_text
       then Some (YList [YStr "just"; YStr "a list"])
  else None.

Definition py : Library :=
  {| urlparse_path := UrlParse.urlparse_path; yaml_safe_load := yaml_table |}.

Definition empty_state : state := {| fs := ∅; trace := [] |}.

(** An output directory [out] next to a lockfile [pixi.lock]. *)
Definition fresh_state : state :=
  {| fs := {["out" := Dir; "pixi.lock" := File lock_foo_text]}; trace := [] |}.

(** The same with [foo] already mirrored. *)
Definition mirrored_state : state :=
  {| fs := {["out" := Dir; "pixi.lock" := File lock_foo_text;
             "out/linux-64" := Dir;
             "out/linux-64/foo-1.0-0.conda" := File "complete"]};
     trace := [] |}.

(** Where [foo] goes under [out]. *)
Definition dest : string := "out/linux-64/foo-1.0-0.conda".

(** Every server answers; every server answers 404. *)
Definition w_ok : World := world serve_all [].
Definition w_404 : World := world serve_404 [].

Definition args_plain : Args :=
  {| lockfile := "pixi.lock"; output_dir := "out"; force := false |}.
Definition args_force : Args :=
  {| lockfile := "pixi.lock"; output_dir := "out"; force := true |}.

End Ex.


(* ===================================================================== *)
(** * Strings and paths *)
(* ===================================================================== *)

Section StringFacts.

Implicit Types (s p : string) (c a : ascii) (l : list string).

Lemma split_not_nil c s : PyStr.split c s <> [].
Proof.
  destruct s as [|a r]; simpl; [discriminate|].
  destruct (Ascii.eqb a c); [discriminate|].
  destruct (PyStr.split c r); discriminate.
Qed.

Lemma rfind_lower_bound c s : (-1 <= PyStr.rfind c s)%Z.
Proof.
  induction s as [|a r IH]; simpl; [lia|].
  destruct (Z.leb_spec 0 (PyStr.rfind c r)); [lia|].
  destruct (Ascii.eqb a c); lia.
Qed.

(** No separator: [rfind] answers [-1] and [split] returns the string. *)
Lemma rfind_absent_split c s :
  PyStr.rfind c s = (-1)%Z -> PyStr.split c s = [s].
Proof.
  induction s as [|a r IH]; simpl; [reflexivity|].
  destruct (Z.leb_spec 0 (PyStr.rfind c r)) as [Hge|Hlt].
  - intros ?; lia.
  - destruct (Ascii.eqb a c); [discriminate|].
    intros _. rewrite IH; [reflexivity|].
    pose proof (rfind_lower_bound c r). lia.
Qed.

(** A separator present: the head piece of [split] is not everything. *)
Lemma rfind_present_split c s :
  (0 <= PyStr.rfind c s)%Z ->
  exists h q t, PyStr.split c s = h :: q :: t.
Proof.
  induction s as [|a r IH]; simpl; [lia|].
  destruct (Z.leb_spec 0 (PyStr.rfind c r)) as [Hge|Hlt].
  - intros _. destruct (IH Hge) as (h & q & t & ->).
    destruct (Ascii.eqb a c); eauto.
  - destruct (Ascii.eqb a c) eqn:E; [|intros ?; lia].
    intros _. pose proof (split_not_nil c r).
    destruct (PyStr.split c r) as [|q t]; [done|eauto].
Qed.

(** [p[p.rfind(c) + 1:]] is the last piece of [p.split(c)]. *)
Lemma drop_rfind_last c s :
  last (PyStr.split c s) = Some (PyStr.drop (Z.to_nat (PyStr.rfind c s + 1)) s).
Proof.
  induction s as [|a r IH]; simpl; [reflexivity|].
  destruct (Z.leb_spec 0 (PyStr.rfind c r)) as [Hge|Hlt].
  - replace (Z.to_nat (PyStr.rfind c r + 1 + 1))
      with (S (Z.to_nat (PyStr.rfind c r + 1))) by lia.
    simpl. rewrite <- IH.
    destruct (rfind_present_split c r Hge) as (h & q & t & ->).
    destruct (Ascii.eqb a c); reflexivity.
  - assert (PyStr.rfind c r = (-1)%Z) as Hm
      by (pose proof (rfind_lower_bound c r); lia).
    rewrite (rfind_absent_split c r Hm).
    destruct (Ascii.eqb a c); reflexivity.
Qed.

Lemma basename_last_split p :
  last (PyStr.split "/" p) = Some (PosixPath.basename p).
Proof. apply drop_rfind_last. Qed.

(** No piece of [s.split(c)] contains [c]. *)
Lemma split_pieces_free c s :
  Forall (fun q => PyStr.contains c q = false) (PyStr.split c s).
Proof.
  induction s as [|a r IH]; simpl.
  - repeat constructor.
  - destruct (Ascii.eqb a c) eqn:E.
    + constructor; [reflexivity|exact IH].
    + destruct (PyStr.split c r) as [|q t]; inversion IH; subst.
      * repeat constructor. simpl. rewrite E. reflexivity.
      * constructor; [|assumption]. simpl. rewrite E. assumption.
Qed.

Lemma last_filter_nonempty l x :
  last l = Some x -> PyStr.nonempty x = true ->
  last (List.filter PyStr.nonempty l) = Some x.
Proof.
  intros Hl Hx. destruct (last_Some l x) as [[l' ->] _]; [assumption|].
  rewrite List.filter_app. simpl. rewrite Hx. apply last_snoc.
Qed.

End StringFacts.

Section PathFacts.

Implicit Types (s p a b x y : string) (l : list string).
#[local] Arguments Ascii.eqb : simpl never.

Lemma nonempty_true s : PyStr.nonempty s = true <-> s <> "".
Proof. destruct s; simpl; split; congruence. Qed.

Lemma app_assoc_str a b x : (a +:+ b) +:+ x = a +:+ (b +:+ x).
Proof.
  induction a as [|c a IH]; [reflexivity|].
  change (String c ((a +:+ b) +:+ x) = String c (a +:+ (b +:+ x))).
  f_equal. exact IH.
Qed.

Lemma free_not_startswith b :
  PyStr.contains "/" b = false -> PyStr.startswith b "/" = false.
Proof.
  destruct b as [|c r]; simpl; [reflexivity|].
  intros [H _]%orb_false_iff. rewrite Ascii.eqb_sym, H. reflexivity.
Qed.

Lemma endswith_app_free a b :
  PyStr.nonempty b = true -> PyStr.contains "/" b = false ->
  PyStr.endswith_char (a +:+ b) "/" = false.
Proof.
  intros Hb Hf. induction a as [|c a IH]; simpl.
  - clear Hb. induction b as [|c r IH]; simpl in *; [reflexivity|].
    apply orb_false_iff in Hf as [Hc Hr].
    destruct r; [exact Hc|]. apply IH. exact Hr.
  - destruct (a +:+ b) eqn:E; [|exact IH].
    destruct a, b; simpl in *; discriminate.
Qed.

Lemma nonempty_app_r a b : PyStr.nonempty b = true -> PyStr.nonempty (a +:+ b) = true.
Proof. destruct a, b; simpl; congruence. Qed.

Lemma join_relative a b :
  PyStr.startswith b "/" = false -> PosixPath.join a b = PosixPath.join_prefix a +:+ b.
Proof.
  intros Hb. unfold PosixPath.join, PosixPath.join_prefix, PosixPath.sep.
  rewrite Hb.
  destruct (negb (PyStr.nonempty a) || PyStr.endswith_char a "/");
    [reflexivity|]. symmetry. apply app_assoc_str.
Qed.

(** The destination of a subdirectory name and a file name without
    slashes, spelled out. *)
Lemma destination_spelled base sub file :
  PyStr.nonempty sub = true -> PyStr.contains "/" sub = false ->
  PyStr.contains "/" file = false ->
  PosixPath.join (PosixPath.join base sub) file
  = PosixPath.join_prefix base +:+ sub +:+ "/" +:+ file.
Proof.
  intros Hne Hs Hf.
  rewrite (join_relative base sub) by (by apply free_not_startswith).
  rewrite join_relative by (by apply free_not_startswith).
  unfold PosixPath.join_prefix at 1. unfold PosixPath.sep.
  rewrite (nonempty_app_r _ sub Hne), (endswith_app_free _ sub Hne Hs).
  simpl. rewrite !app_assoc_str. reflexivity.
Qed.

Lemma slash_split_inj s1 f1 s2 f2 :
  PyStr.contains "/" s1 = false -> PyStr.contains "/" s2 = false ->
  s1 +:+ "/" +:+ f1 = s2 +:+ "/" +:+ f2 -> s1 = s2 /\ f1 = f2.
Proof.
  revert s2. induction s1 as [|c r IH]; intros [|c' r'] H1 H2 E;
    simpl in *.
  - by inversion E.
  - inversion E; subst. by rewrite Ascii.eqb_refl in H2.
  - inversion E; subst. by rewrite Ascii.eqb_refl in H1.
  - inversion E; subst.
    apply orb_false_iff in H1 as [_ H1]. apply orb_false_iff in H2 as [_ H2].
    destruct (IH r' H1 H2) as [-> ->]; [assumption|done].
Qed.

End PathFacts.

Section DestinationFacts.

Implicit Types (path base : string).

Lemma components_free path :
  Forall (fun q => PyStr.nonempty q = true /\ PyStr.contains "/" q = false)
    (path_components path).
Proof.
  unfold path_components. apply Forall_forall. intros q Hq.
  apply list_elem_of_In, List.filter_In in Hq as [Hin Hne]. split; [done|].
  pose proof (split_pieces_free "/" path) as Hf.
  rewrite Forall_forall in Hf. apply Hf. by apply list_elem_of_In.
Qed.

(** On a derivable path the components end with the subdirectory and the
    file name the program uses. *)
Lemma components_shape path :
  derivable path = true ->
  exists pre,
    path_components path
    = pre ++ [second_to_last (path_components path); PosixPath.basename path].
Proof.
  unfold derivable. intros [Hne Hlen]%andb_true_iff.
  apply Nat.leb_le in Hlen.
  pose proof (last_filter_nonempty _ _ (basename_last_split path) Hne) as Hl.
  fold (path_components path) in Hl.
  apply last_Some in Hl as [l' Hl].
  destruct (decide (l' = [])) as [->|Hnil].
  { rewrite Hl in Hlen. simpl in Hlen. lia. }
  destruct (last l') as [x|] eqn:Hx; [|by apply last_None in Hx].
  apply last_Some in Hx as [pre ->]. exists pre.
  unfold second_to_last. rewrite Hl, <- app_assoc. simpl.
  rewrite length_app. simpl.
  replace (length pre + 2 - 2) with (length pre) by lia.
  by rewrite nth_middle.
Qed.

Lemma derivable_parts path :
  derivable path = true ->
  let sub := second_to_last (path_components path) in
  let file := PosixPath.basename path in
  (PyStr.nonempty sub = true /\ PyStr.contains "/" sub = false)
  /\ (PyStr.nonempty file = true /\ PyStr.contains "/" file = false).
Proof.
  intros Hd. destruct (components_shape path Hd) as [pre Hpre].
  pose proof (components_free path) as Hf. rewrite Hpre in Hf.
  apply Forall_app in Hf as [_ Hf].
  inversion Hf as [|? ? Hs Hf']; subst. inversion Hf' as [|? ? Hb _]; subst.
  simpl. done.
Qed.

Lemma destination_spelled_path base path :
  derivable path = true ->
  destination base path
  = PosixPath.join_prefix base +:+ second_to_last (path_components path)
    +:+ "/" +:+ PosixPath.basename path.
Proof.
  intros Hd. destruct (derivable_parts path Hd) as [[? ?] [? ?]].
  unfold destination, platform_dir. by apply destination_spelled.
Qed.

Lemma platform_dir_spelled base path :
  derivable path = true ->
  platform_dir base path
  = PosixPath.join_prefix base +:+ second_to_last (path_components path).
Proof.
  intros Hd. destruct (derivable_parts path Hd) as [[? ?] _].
  unfold platform_dir. apply join_relative. by apply free_not_startswith.
Qed.

Lemma length_app_str (a b : string) :
  String.length (a +:+ b) = String.length a + String.length b.
Proof. induction a as [|c a IH]; simpl; [reflexivity|]. by rewrite IH. Qed.

(** The file never lands on its own directory. *)
Lemma destination_not_platform_dir base path :
  derivable path = true -> destination base path <> platform_dir base path.
Proof.
  intros Hd E.
  rewrite destination_spelled_path, platform_dir_spelled in E by done.
  apply (f_equal String.length) in E.
  rewrite !length_app_str in E. simpl in E. lia.
Qed.

End DestinationFacts.

(* ===================================================================== *)
(** * The file system and the trace *)
(* ===================================================================== *)

Section StateFacts.

Implicit Types (s : state) (p q : string) (e : event).

Lemma fs_log e s : fs (log e s) = fs s.
Proof. reflexivity. Qed.

Lemma trace_log e s : trace (log e s) = trace s ++ [e].
Proof. reflexivity. Qed.

Lemma path_exists_log e s p : path_exists (log e s) p = path_exists s p.
Proof. reflexivity. Qed.

Lemma path_exists_true s p : path_exists s p = true <-> is_Some (fs s !! p).
Proof.
  unfold path_exists. destruct (fs s !! p); split; intros H;
    try done; try by eexists.
Qed.

Lemma path_exists_false s p : path_exists s p = false <-> fs s !! p = None.
Proof. unfold path_exists. destruct (fs s !! p); split; congruence. Qed.

Lemma lookup_fs_put p q n s :
  fs (fs_put q n s) !! p = if decide (q = p) then Some n else fs s !! p.
Proof. unfold fs_put. simpl. apply lookup_insert. Qed.

Lemma lookup_fs_remove p q s :
  fs (fs_remove q s) !! p = if decide (q = p) then None else fs s !! p.
Proof. unfold fs_remove. simpl. apply lookup_delete. Qed.

Lemma lookup_fs_write_ne p q c s : q <> p -> fs (fs_write q c s) !! p = fs s !! p.
Proof.
  intros Hne. unfold fs_write. destruct (fs s !! q) as [[]|]; try done;
    rewrite lookup_fs_put; by destruct (decide (q = p)).
Qed.

Lemma fs_write_exists q c s : path_exists (fs_write q c s) q = true.
Proof.
  unfold fs_write. destruct (fs s !! q) as [[]|] eqn:E;
    apply path_exists_true; rewrite ?lookup_fs_put, ?decide_True by done;
    rewrite ?E; by eexists.
Qed.

Lemma trace_fs_put q n s : trace (fs_put q n s) = trace s.
Proof. reflexivity. Qed.

Lemma trace_fs_remove q s : trace (fs_remove q s) = trace s.
Proof. reflexivity. Qed.

Lemma trace_fs_write q c s : trace (fs_write q c s) = trace s.
Proof. unfold fs_write. by destruct (fs s !! q) as [[]|]. Qed.

End StateFacts.


(* ===================================================================== *)
(** * [download_package] *)
(* ===================================================================== *)

Section DownloadFacts.

Context `{Library}.
Implicit Types (w : World) (s : state) (url base path p : string).

(** The parser raised: one message, nothing else. *)
Lemma download_unparsed w url base force s :
  urlparse_path url = None ->
  download_package w url base force s
  = (false, log (EStderr (MsgUnexpected url)) s).
Proof.
  intros Hp. unfold download_package, try_block. rewrite Hp. reflexivity.
Qed.

(** No destination can be derived: one message, nothing else. *)
Lemma download_underivable w url base force s path :
  urlparse_path url = Some path -> derivable path = false ->
  exists m, download_package w url base force s = (false, log (EStderr m) s).
Proof.
  intros Hp Hd. unfold download_package, try_block. rewrite Hp.
  unfold derivable in Hd.
  destruct (PyStr.nonempty (PosixPath.basename path)); simpl negb; cbv iota;
    [|by eexists].
  destruct (Nat.ltb_spec (length (path_components path)) 2) as [|Hge];
    [by eexists|].
  rewrite andb_true_l in Hd. apply Nat.leb_gt in Hd. lia.
Qed.

(** With a destination, the call is the directory step, the cache check,
    the fetch and, when the fetch raised, the cleanup. *)
Lemma download_derivable w url base force s path :
  urlparse_path url = Some path -> derivable path = true ->
  let file := PosixPath.basename path in
  let dir := platform_dir base path in
  let dest := destination base path in
  download_package w url base force s
  = match ensure_platform_dir w dir s with
    | (false, s1) => (false, s1)
    | (true, s1) =>
        if negb force && path_exists s1 dest then
          (true, log (EStdout (MsgSkipExisting file dir)) s1)
        else
          match fetch_to w url file dir dest s1 with
          | (Returned b, s2) => (b, s2)
          | (Raised e, s2) =>
              (false,
               cleanup w dest file
                 (log (EStderr (handler_message e file url)) s2))
          end
    end.
Proof.
  intros Hp Hd. simpl. unfold download_package, try_block. rewrite Hp.
  unfold derivable in Hd. apply andb_true_iff in Hd as [Hne Hlen].
  rewrite Hne. simpl negb. cbv iota.
  apply Nat.leb_le in Hlen.
  destruct (Nat.ltb_spec (length (path_components path)) 2); [lia|].
  fold (platform_dir base path). fold (destination base path).
  destruct (ensure_platform_dir w (platform_dir base path) s) as [[] s1];
    [|reflexivity].
  destruct (negb force && path_exists s1 (destination base path));
    [reflexivity|].
  destruct (fetch_to _ _ _ _ _ _) as [[b|e] s2]; reflexivity.
Qed.

(** *** The three steps *)

Lemma requests_log_http u s : requests (log (EHttpGet u) s) = requests s ++ [u].
Proof. unfold requests, log. simpl. by rewrite omap_app. Qed.

Lemma requests_log_stdout m s : requests (log (EStdout m) s) = requests s.
Proof. unfold requests, log. simpl. rewrite omap_app. apply app_nil_r. Qed.

Lemma requests_log_stderr m s : requests (log (EStderr m) s) = requests s.
Proof. unfold requests, log. simpl. rewrite omap_app. apply app_nil_r. Qed.

Lemma requests_fs_put q n s : requests (fs_put q n s) = requests s.
Proof. reflexivity. Qed.

Lemma requests_fs_remove q s : requests (fs_remove q s) = requests s.
Proof. reflexivity. Qed.

Lemma requests_fs_write q c s : requests (fs_write q c s) = requests s.
Proof. unfold requests. by rewrite trace_fs_write. Qed.

Lemma requests_emit es s :
  (forall e, e ∈ es -> forall u, e <> EHttpGet u) ->
  requests (emit es s) = requests s.
Proof.
  intros Hes. unfold requests, emit. simpl. rewrite omap_app.
  rewrite <- (app_nil_r (omap _ (trace s))) at 2. f_equal.
  induction es as [|e es IH]; [reflexivity|]. simpl.
  destruct e as [m|m|u]; try (apply IH; intros; apply Hes; by right).
  by destruct (Hes (EHttpGet u) (list_elem_of_here _ _) u).
Qed.

Lemma ensure_dir_present w dir s :
  path_exists s dir = true -> ensure_platform_dir w dir s = (true, s).
Proof. intros E. unfold ensure_platform_dir. by rewrite E. Qed.

Lemma ensure_dir_spec w dir s b s1 :
  ensure_platform_dir w dir s = (b, s1) ->
  requests s1 = requests s
  /\ (forall p, p <> dir -> fs s1 !! p = fs s !! p)
  /\ (forall p, path_exists s p = true -> path_exists s1 p = true)
  /\ (if b then path_exists s1 dir = true
      else fs s1 = fs s /\ makedirs_ok w dir = false).
Proof.
  unfold ensure_platform_dir. intros E.
  destruct (path_exists s dir) eqn:Hex; [by simplify_eq|].
  destruct (makedirs_ok w dir) eqn:Hmk; simplify_eq.
  - rewrite requests_log_stdout, requests_fs_put. split; [done|].
    split; [|split].
    + intros p Hp. rewrite fs_log, lookup_fs_put. by rewrite decide_False.
    + intros p Hp. rewrite path_exists_log. apply path_exists_true.
      rewrite lookup_fs_put. destruct (decide (dir = p)); [by eexists|].
      by apply path_exists_true.
    + rewrite path_exists_log. apply path_exists_true.
      rewrite lookup_fs_put, decide_True by done. by eexists.
  - by rewrite requests_log_stderr.
Qed.

Lemma fetch_to_spec w url file dir dest s o s2 :
  fetch_to w url file dir dest s = (o, s2) ->
  requests s2 = requests s ++ [url]
  /\ (forall p, p <> dest -> fs s2 !! p = fs s !! p)
  /\ (forall p, path_exists s p = true -> path_exists s2 p = true)
  /\ (path_exists s dest = false -> path_isfile s2 dest = path_exists s2 dest)
  /\ match o with
     | Returned b => b = true /\ path_exists s2 dest = true
     | Raised _ => True
     end.
Proof.
  unfold fetch_to. intros E.
  set (s1 := log (EHttpGet url) (log (EStdout _) s)) in E.
  assert (requests s1 = requests s ++ [url]) as Hr
    by (unfold s1; by rewrite requests_log_http, requests_log_stdout).
  assert (forall c p, path_exists s p = true ->
            path_exists (fs_write dest c s1) p = true) as Hmono.
  { intros c p Hp. destruct (decide (dest = p)) as [->|Hne];
      [apply fs_write_exists|].
    apply path_exists_true. rewrite lookup_fs_write_ne by done.
    by apply path_exists_true. }
  assert (forall c, path_exists s dest = false ->
            path_isfile (fs_write dest c s1) dest = true) as Hfile.
  { intros c Hn. apply path_exists_false in Hn.
    unfold path_isfile, fs_write. change (fs s1) with (fs s). rewrite Hn.
    by rewrite lookup_fs_put, decide_True. }
  assert (path_exists s dest = false -> path_isfile s1 dest = path_exists s1 dest)
    as Hsame.
  { intros Hn. unfold path_isfile, path_exists. change (fs s1) with (fs s).
    apply path_exists_false in Hn. by rewrite Hn. }
  destruct (http_get w url) as [e|status chunks stream_err];
    [by simplify_eq|].
  destruct (raises_for_status status); [by simplify_eq|].
  destruct (can_open_wb w s1 dir dest); [|by simplify_eq].
  destruct stream_err as [e|]; simplify_eq.
  - rewrite requests_fs_write. split; [done|]. split; [|split; [|split]];
      try done.
    + intros p Hp. by rewrite lookup_fs_write_ne.
    + apply Hmono.
    + intros Hn. by rewrite Hfile, fs_write_exists.
  - rewrite requests_log_stdout, requests_fs_write.
    split; [done|]. split; [|split; [|split]].
    + intros p Hp. by rewrite fs_log, lookup_fs_write_ne.
    + intros p Hp. rewrite path_exists_log. by apply Hmono.
    + intros Hn. unfold path_isfile in *. rewrite path_exists_log, fs_log.
      specialize (Hfile (String.concat "" chunks) Hn).
      change (path_isfile (fs_write dest (String.concat "" chunks) s1) dest
              = true) in Hfile.
      unfold path_isfile in Hfile. by rewrite Hfile, fs_write_exists.
    + split; [done|]. rewrite path_exists_log. apply fs_write_exists.
Qed.

Lemma cleanup_spec w dest file s :
  let s' := cleanup w dest file s in
  requests s' = requests s
  /\ (forall p, p <> dest -> fs s' !! p = fs s !! p)
  /\ (PyStr.nonempty dest = true ->
      path_isfile s dest = path_exists s dest -> remove_ok w dest = true ->
      path_exists s' dest = false).
Proof.
  simpl. unfold cleanup.
  destruct (PyStr.nonempty dest && path_exists s dest && path_isfile s dest)
    eqn:Hc.
  - set (s1 := if (path_getsize s dest =? 0)%nat then _ else s).
    assert (fs s1 = fs s /\ requests s1 = requests s) as [Hfs Hrq].
    { unfold s1. destruct (_ =? _)%nat; [|done].
      by rewrite requests_log_stderr. }
    destruct (remove_ok w dest).
    + rewrite requests_log_stderr, requests_fs_remove. split; [done|].
      split.
      * intros p Hp. rewrite fs_log, lookup_fs_remove, decide_False by done.
        by rewrite Hfs.
      * intros _ _ _. apply path_exists_false.
        by rewrite fs_log, lookup_fs_remove, decide_True.
    + rewrite requests_log_stderr. split; [done|]. split; [|done].
      intros p _. by rewrite fs_log, Hfs.
  - split; [done|]. split; [done|]. intros Hne Hsame _.
    rewrite Hne, Hsame in Hc. by destruct (path_exists s dest).
Qed.


(** *** The whole call *)

(** At most one request, and only for [url]. *)
Lemma download_requests w url base force s :
  let s' := (download_package w url base force s).2 in
  requests s' = requests s \/ requests s' = requests s ++ [url].
Proof.
  simpl. destruct (urlparse_path url) as [path|] eqn:Hp.
  2: { rewrite download_unparsed by done. left. apply requests_log_stderr. }
  destruct (derivable path) eqn:Hd.
  2: { destruct (download_underivable w url base force s path Hp Hd)
         as [m ->]. left. apply requests_log_stderr. }
  rewrite (download_derivable _ _ _ _ _ _ Hp Hd).
  destruct (ensure_platform_dir _ _ _) as [b s1] eqn:E1.
  destruct (ensure_dir_spec _ _ _ _ _ E1) as (R1 & _).
  destruct b; [|by left].
  destruct (negb force && _).
  { left. simpl. by rewrite requests_log_stdout. }
  destruct (fetch_to _ _ _ _ _ _) as [o s2] eqn:E2.
  destruct (fetch_to_spec _ _ _ _ _ _ _ _ E2) as (R2 & _).
  right. destruct o; simpl; [congruence|].
  destruct (cleanup_spec w (destination base path) (PosixPath.basename path)
              (log (EStderr (handler_message e (PosixPath.basename path) url))
                 s2)) as (R3 & _).
  rewrite R3, requests_log_stderr. congruence.
Qed.


(** A cache hit: success, one line on stdout, nothing else. *)
Lemma download_cached w url base s :
  cached base url s = true ->
  exists m, download_package w url base false s = (true, log (EStdout m) s).
Proof.
  unfold cached. destruct (urlparse_path url) as [path|] eqn:Hp; [|done].
  intros [[Hd Hdir]%andb_true_iff Hdest]%andb_true_iff.
  rewrite (download_derivable _ _ _ _ _ _ Hp Hd).
  rewrite ensure_dir_present by done. rewrite Hdest. simpl. by eexists.
Qed.

(** Success leaves the destination on disk and removes nothing. *)
Lemma download_success w url base force s s' :
  download_package w url base force s = (true, s') ->
  cached base url s' = true
  /\ forall p, path_exists s p = true -> path_exists s' p = true.
Proof.
  unfold cached. destruct (urlparse_path url) as [path|] eqn:Hp.
  2: { by rewrite download_unparsed. }
  destruct (derivable path) eqn:Hd.
  2: { by destruct (download_underivable w url base force s path Hp Hd)
         as [m ->]. }
  rewrite (download_derivable _ _ _ _ _ _ Hp Hd).
  destruct (ensure_platform_dir _ _ _) as [b s1] eqn:E1.
  destruct (ensure_dir_spec _ _ _ _ _ E1) as (_ & _ & M1 & P1).
  destruct b; [|done].
  destruct (negb force && _) eqn:Hc.
  { intros [= <-]. apply andb_true_iff in Hc as [_ Hc].
    rewrite !path_exists_log, P1, Hc. split; [done|].
    intros p Hx. rewrite path_exists_log. by apply M1. }
  destruct (fetch_to _ _ _ _ _ _) as [o s2] eqn:E2.
  destruct (fetch_to_spec _ _ _ _ _ _ _ _ E2) as (_ & _ & M2 & _ & P2).
  destruct o as [b|e]; [|done]. intros [= -> <-]. destruct P2 as [_ P2].
  rewrite P2, (M2 _ P1). split; [done|]. intros p Hx. by apply M2, M1.
Qed.

(** Under [--force] a derivable URL whose directory is there or can be
    made is requested. *)
Lemma download_forced w url base s path :
  urlparse_path url = Some path -> derivable path = true ->
  path_exists s (platform_dir base path) = true
  \/ makedirs_ok w (platform_dir base path) = true ->
  requests (download_package w url base true s).2 = requests s ++ [url].
Proof.
  intros Hp Hd Hdir. rewrite (download_derivable _ _ _ _ _ _ Hp Hd).
  destruct (ensure_platform_dir _ _ _) as [b s1] eqn:E1.
  destruct (ensure_dir_spec _ _ _ _ _ E1) as (R1 & _ & _ & P1).
  destruct b.
  2: { destruct P1 as [_ P1]. destruct Hdir as [Hdir|Hdir]; [|congruence].
       rewrite ensure_dir_present in E1 by done. congruence. }
  simpl negb. rewrite andb_false_l.
  destruct (fetch_to _ _ _ _ _ _) as [o s2] eqn:E2.
  destruct (fetch_to_spec _ _ _ _ _ _ _ _ E2) as (R2 & _).
  destruct o; simpl; [congruence|].
  destruct (cleanup_spec w (destination base path) (PosixPath.basename path)
              (log (EStderr (handler_message e (PosixPath.basename path) url))
                 s2)) as (R3 & _).
  rewrite R3, requests_log_stderr. congruence.
Qed.



End DownloadFacts.

(* ===================================================================== *)
(** * [main] *)
(* ===================================================================== *)

Section MainFacts.

Context `{Library}.
Implicit Types (w : World) (a : Args) (s : state) (rs : list (string * bool)).

Lemma attempt_each_urls w base force urls i n s :
  (attempt_each w base force urls i n s).1.*1 = urls.
Proof.
  revert i s. induction urls as [|u urls IH]; intros i s; simpl; [done|].
  destruct (download_package _ _ _ _ _) as [ok s1].
  specialize (IH (S i) s1).
  destruct (attempt_each _ _ _ _ _ _ _) as [rs s2]. simpl in *.
  f_equal. exact IH.
Qed.

(** The counters of the loop are the numbers of successes and failures
    among the attempts. *)
Lemma process_urls_attempts w base force urls i n sc fc s :
  process_urls w base force urls i n sc fc s
  = (sc + length (List.filter snd (attempt_each w base force urls i n s).1),
     fc + length (List.filter (fun r => negb r.2)
                    (attempt_each w base force urls i n s).1),
     (attempt_each w base force urls i n s).2).
Proof.
  revert i sc fc s. induction urls as [|u urls IH]; intros i sc fc s; simpl.
  { by rewrite !Nat.add_0_r. }
  destruct (download_package _ _ _ _ _) as [ok s1].
  specialize (IH (S i)).
  destruct ok; rewrite IH;
    destruct (attempt_each _ _ _ _ _ _ _) as [rs s2]; simpl;
    repeat f_equal; lia.
Qed.

Lemma no_failure_iff rs :
  length (List.filter (fun r => negb r.2) rs) = 0
  <-> Forall (fun r => r.2 = true) rs.
Proof.
  induction rs as [|[u b] rs IH]; simpl; [by split; [constructor|]|].
  destruct b; simpl.
  - rewrite IH. split; [by constructor|]. by inversion 1.
  - split; [done|]. by inversion 1.
Qed.

Lemma some_failure_iff rs :
  ~ Forall (fun r => r.2 = true) rs <-> Exists (fun r => r.2 = false) rs.
Proof.
  rewrite <- Exists_Forall_neg.
  - split; intros HE; (eapply Exists_impl; [exact HE|]);
      intros [u []]; simpl; congruence.
  - intros [u []]; simpl; [by left|by right].
Qed.

(** The exit code [fetch_all] computes from the attempts. *)
Lemma fetch_all_exit w a urls s :
  let rs :=
    (attempt_each w (output_dir a) (force a) urls 1 (length urls)
       (log (EStdout (MsgFound (length urls))) s)).1 in
  (fetch_all w a urls s).1
  = if decide (Forall (fun r => r.2 = true) rs) then 0 else 1.
Proof.
  cbv zeta. unfold fetch_all. destruct urls as [|u urls].
  { destruct (decide _) as [|Hn]; [done|]. destruct Hn. constructor. }
  rewrite process_urls_attempts.
  set (rs := (attempt_each _ _ _ _ _ _ _).1).
  pose proof (no_failure_iff rs) as Hk.
  set (k := length (List.filter _ rs)) in *.
  destruct (decide _) as [Hall|Hsome].
  - apply Hk in Hall. rewrite Hall. reflexivity.
  - destruct (Nat.ltb_spec 0 (0 + k)); [done|].
    destruct Hsome. apply Hk. lia.
Qed.

Lemma main_setup w a s :
  main w a s
  = match setup w a s with
    | (Exited c, s1) => (c, s1)
    | (Done lockfile_data, s1) =>
        fetch_all w a (extract_conda_package_urls w lockfile_data).1
          (emit (extract_conda_package_urls w lockfile_data).2
             (log (EStdout MsgExtracting) s1))
    end.
Proof.
  unfold main, setup.
  destruct (prepare_output_dir _ _ _) as [[[]|c] s1]; [|done].
  destruct (load_lockfile _ _ _) as [[d|c] s3]; [|done].
  by destruct (extract_conda_package_urls w d).
Qed.

End MainFacts.

(* ===================================================================== *)
(** * [extract_conda_package_urls] *)
(* ===================================================================== *)

Section ExtractFacts.

Implicit Types (w : World) (data : gmap string yaml) (e : yaml)
  (l : list yaml) (X : gset string) (u : string).

Lemma entry_url_prefix e u : entry_url e = Some u -> PyStr.startswith u "http" = true.
Proof.
  unfold entry_url. destruct e as [| | | | |?|d|]; try done.
  destruct (d !! "conda") as [[]|]; try done.
  destruct (PyStr.startswith _ _) eqn:E; [|done]. by intros [= <-].
Qed.

(** One round of the primary loop adds the URL of the entry, or the
    warning for its rejected value, or nothing. *)
Lemma primary_step_spec (acc : gset string * list event) e :
  primary_step acc e
  = (match entry_url e with Some u => acc.1 ∪ {[u]} | None => acc.1 end,
     match entry_rejected e with
     | Some v => acc.2 ++ [EStderr (MsgSkipMalformed v)]
     | None => acc.2
     end).
Proof.
  destruct acc as [X out]. unfold primary_step, entry_rejected, entry_url.
  destruct e as [| | | | |?|d|]; try done.
  destruct (d !! "conda") as [[| | | |u| | |]|]; try done.
  simpl. by destruct (PyStr.startswith u "http").
Qed.

Lemma foldl_primary_step l X (out : list event) :
  foldl primary_step (X, out) l
  = (X ∪ list_to_set (omap entry_url l),
     out ++ ((fun v => EStderr (MsgSkipMalformed v)) <$> omap entry_rejected l)).
Proof.
  revert X out. induction l as [|e l IH]; intros X out; simpl.
  { f_equal; [set_solver|by rewrite app_nil_r]. }
  rewrite primary_step_spec. simpl. rewrite IH.
  destruct (entry_url e) as [u|], (entry_rejected e) as [v|]; simpl;
    f_equal; try set_solver; by rewrite <- ?app_assoc.
Qed.

(** The primary traversal, in closed form. *)
Lemma primary_spec data :
  primary data
  = (list_to_set (omap entry_url (primary_entries data)),
     (fun v => EStderr (MsgSkipMalformed v))
       <$> omap entry_rejected (primary_entries data)).
Proof.
  unfold primary, primary_entries.
  destruct (data !! "packages") as [[| | | | |l| |]|]; try done.
  rewrite foldl_primary_step. f_equal. set_solver.
Qed.

Lemma elem_of_primary data u :
  u ∈ (primary data).1
  <-> exists e, e ∈ primary_entries data /\ entry_url e = Some u.
Proof.
  rewrite primary_spec. simpl. rewrite elem_of_list_to_set, list_elem_of_omap.
  done.
Qed.

Lemma primary_empty data :
  (primary data).1 = ∅
  <-> forall e, e ∈ primary_entries data -> entry_url e = None.
Proof.
  split.
  - intros He e Hin. destruct (entry_url e) as [u|] eqn:Hu; [|done].
    assert (u ∈ (primary data).1) as Hu' by (apply elem_of_primary; eauto).
    rewrite He in Hu'. set_solver.
  - intros Hall. apply set_eq. intros u. rewrite elem_of_primary.
    split; [|set_solver]. intros (e & Hin & Hu). rewrite Hall in Hu; done.
Qed.

Lemma fallback_step_spec X e :
  fallback_step X e
  = match entry_url e with Some u => X ∪ {[u]} | None => X end.
Proof.
  unfold fallback_step, entry_url.
  destruct e as [| | | | |?|d|]; try done.
  destruct (d !! "conda") as [[| | | |u| | |]|]; try done.
  by destruct (PyStr.startswith u "http").
Qed.

Lemma foldl_fallback_step l X :
  foldl fallback_step X l = X ∪ list_to_set (omap entry_url l).
Proof.
  revert X. induction l as [|e l IH]; intros X; simpl; [set_solver|].
  rewrite fallback_step_spec, IH. destruct (entry_url e); set_solver.
Qed.

(** A fold that only ever adds to the set: what it adds comes from some
    value of the mapping. *)
Lemma elem_of_map_fold_add (g : gset string -> yaml -> gset string)
    (C : yaml -> string -> Prop) (m : gmap string yaml) X u :
  (forall Y v x, x ∈ g Y v <-> x ∈ Y \/ C v x) ->
  u ∈ map_fold (fun _ v acc => g acc v) X m
  <-> u ∈ X \/ exists k v, m !! k = Some v /\ C v u.
Proof.
  intros Hg. apply (map_fold_weak_ind
    (fun r m => u ∈ r <-> u ∈ X \/ exists k v, m !! k = Some v /\ C v u)).
  - split; [by left|]. intros [|(k & v & Hk & _)]; [done|].
    by rewrite lookup_empty in Hk.
  - intros k v m' r Hk IH. rewrite Hg, IH. split.
    + intros [[|(k' & v' & Hk' & Hc)]|Hc]; [by left| |].
      * right. exists k', v'. split; [|done].
        rewrite lookup_insert_ne; [done|]. intros ->. congruence.
      * right. exists k, v. by rewrite lookup_insert_eq.
    + intros [|(k' & v' & Hk' & Hc)]; [by left; left|].
      destruct (decide (k = k')) as [<-|Hne].
      * rewrite lookup_insert_eq in Hk'. right. congruence.
      * rewrite lookup_insert_ne in Hk' by done. left; right. eauto.
Qed.

Lemma elem_of_fallback_platform X v u :
  u ∈ fallback_platform X v
  <-> u ∈ X \/ exists l e, v = YList l /\ e ∈ l /\ entry_url e = Some u.
Proof.
  unfold fallback_platform.
  destruct v as [| | | | |l| |];
    try (split; [by left|]; by intros [|(? & ? & ? & _)]).
  rewrite foldl_fallback_step, elem_of_union, elem_of_list_to_set,
    list_elem_of_omap.
  split; (intros [|Hr]; [by left|right]).
  - destruct Hr as (e & ? & ?). by exists l, e.
  - destruct Hr as (l' & e & [= <-] & ? & ?). by exists e.
Qed.

Lemma elem_of_fallback_env X env_data u :
  u ∈ fallback_env X env_data
  <-> u ∈ X
      \/ exists d platforms platform l e,
           env_data = YMap d /\ d !! "packages" = Some (YMap platforms)
           /\ platforms !! platform = Some (YList l)
           /\ e ∈ l /\ entry_url e = Some u.
Proof.
  unfold fallback_env.
  destruct env_data as [| | | | | |d|];
    try (split; [by left|]; by intros [|(? & ? & ? & ? & ? & ? & _)]).
  destruct (d !! "packages") as [[| | | | | |platforms|]|] eqn:Hd;
    try (split; [by left|];
         intros [|(? & ? & ? & ? & ? & [= <-] & ? & _)]; [done|congruence]).
  rewrite (elem_of_map_fold_add fallback_platform
             (fun v x => exists l e, v = YList l /\ e ∈ l
                                     /\ entry_url e = Some x)).
  2: { intros. apply elem_of_fallback_platform. }
  split; (intros [|Hr]; [by left|right]).
  - destruct Hr as (k & v & Hk & l & e & -> & ? & ?).
    by exists d, platforms, k, l, e.
  - destruct Hr as (d' & pf & k & l & e & [= <-] & Hp & Hk & ? & ?).
    rewrite Hd in Hp. injection Hp as <-.
    exists k, (YList l). split; [done|]. by exists l, e.
Qed.

(** The fallback traversal collects exactly the URLs the specification
    describes under [environments]. *)
Lemma elem_of_fallback (environments : gmap string yaml) u :
  u ∈ fallback environments <-> in_environments environments u.
Proof.
  unfold fallback, in_environments.
  rewrite (elem_of_map_fold_add fallback_env
             (fun v x => exists d platforms platform l e,
                v = YMap d /\ d !! "packages" = Some (YMap platforms)
                /\ platforms !! platform = Some (YList l)
                /\ e ∈ l /\ entry_url e = Some x)).
  2: { intros. apply elem_of_fallback_env. }
  split.
  - intros [Hu|(k & v & Hk & d & pf & pl & l & e & -> & ? & ? & ? & ?)];
      [set_solver|]. by exists k, d, pf, pl, l, e.
  - intros (k & d & pf & pl & l & e & ? & ? & ? & ? & ?). right.
    exists k, (YMap d). split; [done|]. by exists d, pf, pl, l, e.
Qed.

(** *** The iteration order of the set *)

Lemma elem_of_set_iter w X u : u ∈ set_iter w X <-> u ∈ X.
Proof. by rewrite (set_iter_perm w X), elem_of_elements. Qed.

Lemma NoDup_set_iter w X : NoDup (set_iter w X).
Proof. rewrite (set_iter_perm w X). apply NoDup_elements. Qed.

Lemma set_iter_empty w : set_iter w ∅ = [].
Proof.
  apply Permutation_nil_r. rewrite (set_iter_perm w ∅).
  by rewrite elements_empty.
Qed.

Lemma set_iter_singleton w u : set_iter w {[u]} = [u].
Proof.
  apply Permutation_singleton_r. rewrite (set_iter_perm w {[u]}).
  by rewrite elements_singleton.
Qed.

Lemma set_iter_nil w X : set_iter w X = [] <-> X = ∅.
Proof.
  split; [|intros ->; apply set_iter_empty].
  intros E. apply set_eq. intros u. rewrite <- (elem_of_set_iter w), E.
  set_solver.
Qed.


Lemma list_to_set_cons_nonempty (a : string) (l : list string) :
  (list_to_set (a :: l) : gset string) <> ∅.
Proof. set_solver. Qed.

(** *** The three ways the extraction ends *)

Lemma mapping_or_not (v : yaml) :
  (exists d, v = YMap d) \/ ~ (exists d, v = YMap d).
Proof. destruct v; try (right; by intros [? ?]). left. by eexists. Qed.

Lemma extract_primary w data :
  (primary data).1 <> ∅ ->
  extract_conda_package_urls w data
  = (set_iter w (primary data).1, (primary data).2).
Proof.
  intros Hne. unfold extract_conda_package_urls, set_is_empty.
  destruct (primary data) as [X out]. simpl in *.
  by rewrite !bool_decide_eq_false_2.
Qed.

Lemma extract_fallback w data environments :
  (primary data).1 = ∅ ->
  data !! "environments" = Some (YMap environments) ->
  extract_conda_package_urls w data
  = (set_iter w (fallback environments),
     ((primary data).2 ++ [EStderr MsgCheckingEnvironments])
     ++ (if set_is_empty (fallback environments)
         then [EStderr MsgNoUrlsFound] else [])).
Proof.
  intros He Henv. unfold extract_conda_package_urls.
  destruct (primary data) as [X out]. simpl in *. subst X.
  unfold set_is_empty at 1. rewrite bool_decide_eq_true_2 by done.
  rewrite Henv. destruct (set_is_empty (fallback environments)); [done|].
  by rewrite app_nil_r.
Qed.

Lemma extract_nothing w data :
  (primary data).1 = ∅ ->
  (forall environments, data !! "environments" <> Some (YMap environments)) ->
  extract_conda_package_urls w data
  = ([], (primary data).2 ++ [EStderr MsgNoUrlsFound]).
Proof.
  intros He Henv. unfold extract_conda_package_urls.
  destruct (primary data) as [X out]. simpl in *. subst X.
  unfold set_is_empty. rewrite bool_decide_eq_true_2 by done.
  destruct (data !! "environments") as [[| | | | | |d|]|];
    rewrite ?bool_decide_eq_true_2, ?set_iter_empty by done; try done.
  by destruct (Henv d).
Qed.

(** The returned list holds exactly the discovered URLs. *)
Lemma elem_of_extract w data u :
  u ∈ (extract_conda_package_urls w data).1 <-> discovered data u.
Proof.
  unfold discovered. destruct (decide ((primary data).1 = ∅)) as [He|Hne].
  - pose proof (proj1 (primary_empty data) He) as Hall.
    destruct (data !! "environments") as [v|] eqn:Henv.
    2: { rewrite extract_nothing by (done || congruence). simpl.
         split; [set_solver|].
         intros [(e & Hin & Hu)|(_ & envs & ? & _)]; [|done].
         rewrite Hall in Hu; done. }
    destruct (mapping_or_not v) as [[d ->]|Hnd].
    + rewrite (extract_fallback w data d) by done. simpl.
      rewrite elem_of_set_iter, elem_of_fallback. split.
      * intros Hu. right. split; [done|]. by exists d.
      * intros [(e & Hin & Hu)|(_ & envs & Hd & Hu)].
        -- rewrite Hall in Hu; done.
        -- by replace d with envs by congruence.
    + rewrite extract_nothing; [|done|].
      2: { intros d Hd. apply Hnd. exists d. congruence. }
      simpl. split; [set_solver|].
      intros [(e & Hin & Hu)|(_ & envs & Hd & _)].
      * rewrite Hall in Hu; done.
      * destruct Hnd. exists envs. congruence.
  - rewrite extract_primary by done. simpl.
    rewrite elem_of_set_iter, elem_of_primary. split; [by left|].
    intros [|[Hall _]]; [done|]. destruct Hne. by apply primary_empty.
Qed.

(** Every message of the extraction goes to stderr. *)
Lemma extract_out_stderr w data (ev : event) :
  ev ∈ (extract_conda_package_urls w data).2 -> exists m, ev = EStderr m.
Proof.
  assert (forall x, x ∈ (primary data).2 -> exists m, x = EStderr m) as Hp.
  { intros x. rewrite primary_spec. simpl. rewrite list_elem_of_fmap.
    intros (v & -> & _). by eexists. }
  destruct (decide ((primary data).1 = ∅)) as [He|Hne].
  - destruct (data !! "environments") as [v|] eqn:Henv.
    2: { rewrite extract_nothing by (done || congruence). simpl.
         rewrite elem_of_app, list_elem_of_singleton.
         intros [?| ->]; [by apply Hp|by eexists]. }
    destruct (mapping_or_not v) as [[d ->]|Hnd].
    + rewrite (extract_fallback w data d) by done. simpl.
      rewrite !elem_of_app, list_elem_of_singleton.
      intros [[?| ->]|Hin]; [by apply Hp|by eexists|].
      destruct (set_is_empty _); [|by apply elem_of_nil in Hin].
      apply list_elem_of_singleton in Hin as ->. by eexists.
    + rewrite extract_nothing; [|done|].
      2: { intros d Hd. apply Hnd. exists d. congruence. }
      simpl. rewrite elem_of_app, list_elem_of_singleton.
      intros [?| ->]; [by apply Hp|by eexists].
  - rewrite extract_primary by done. apply Hp.
Qed.

End ExtractFacts.

(* ===================================================================== *)
(** * The statements of the specification *)
(* ===================================================================== *)

Section Destination.

Context `{Library}.



(** C8, as the code has it.  Two URLs with derivable destinations get the
    same destination path exactly when their paths end with the same two
    non-empty segments; nothing else of the URL (scheme, host, leading
    segments, query, fragment) takes part. *)
Theorem C8_destination_by_last_two_segments (base url1 url2 p1 p2 : string) :
  urlparse_path url1 = Some p1 -> urlparse_path url2 = Some p2 ->
  derivable p1 = true -> derivable p2 = true ->
  destination_of base url1 = destination_of base url2
  <-> second_to_last (path_components p1) = second_to_last (path_components p2)
      /\ PosixPath.basename p1 = PosixPath.basename p2.
Proof.
  intros Hp1 Hp2 Hd1 Hd2. unfold destination_of.
  rewrite Hp1, Hp2, Hd1, Hd2.
  rewrite !destination_spelled_path by done.
  destruct (derivable_parts p1 Hd1) as [[_ Hs1] _].
  destruct (derivable_parts p2 Hd2) as [[_ Hs2] _].
  split.
  - intros [= E]. apply String.app_inj in E.
    by apply slash_split_inj in E.
  - by intros [-> ->].
Qed.

End Destination.

(* ===================================================================== *)
(** * Whole runs *)
(* ===================================================================== *)

Section RunFacts.

Context `{Library}.
Implicit Types (w : World) (a : Args) (s : state) (u base : string).

Lemma cached_mono base u s s' :
  (forall p, path_exists s p = true -> path_exists s' p = true) ->
  cached base u s = true -> cached base u s' = true.
Proof.
  intros Hm. unfold cached. destruct (urlparse_path u) as [path|]; [|done].
  intros [[-> Hd]%andb_true_iff Hf]%andb_true_iff.
  by rewrite (Hm _ Hd), (Hm _ Hf).
Qed.

Lemma prepare_output_dir_spec w out s :
  let s1 := (prepare_output_dir w out s).2 in
  requests s1 = requests s
  /\ forall p, path_exists s p = true -> path_exists s1 p = true.
Proof.
  simpl. unfold prepare_output_dir.
  destruct (path_exists s out) eqn:Hex; simpl.
  - destruct (path_isdir s out); simpl.
    + destruct (access_w_ok w out); simpl; [done|].
      by rewrite requests_log_stderr.
    + by rewrite requests_log_stderr.
  - destruct (makedirs_ok w out); simpl.
    + assert (forall p, path_exists s p = true ->
                path_exists (fs_put out Dir s) p = true) as Hm.
      { intros p Hp. apply path_exists_true. rewrite lookup_fs_put.
        destruct (decide (out = p)); [by eexists|].
        by apply path_exists_true. }
      destruct (access_w_ok w out); simpl;
        rewrite ?requests_log_stderr, requests_log_stdout; done.
    + by rewrite requests_log_stderr.
Qed.

Lemma load_lockfile_state w path s :
  let s1 := (load_lockfile w path s).2 in
  fs s1 = fs s /\ requests s1 = requests s.
Proof.
  simpl. unfold load_lockfile.
  destruct (fs s !! path) as [[|text|]|]; simpl;
    rewrite ?requests_log_stderr; try done.
  destruct (read_ok w path); simpl; rewrite ?requests_log_stderr; try done.
  destruct (yaml_safe_load text) as [[| | | | | |d|]|]; simpl;
    rewrite ?requests_log_stderr; try done.
  destruct (version_supported d); simpl; by rewrite ?requests_log_stderr.
Qed.

(** The setup makes no request and removes nothing. *)
Lemma setup_spec w a s :
  let s1 := (setup w a s).2 in
  requests s1 = requests s
  /\ forall p, path_exists s p = true -> path_exists s1 p = true.
Proof.
  simpl. unfold setup.
  destruct (prepare_output_dir_spec w (output_dir a) s) as [R1 M1].
  destruct (prepare_output_dir w (output_dir a) s) as [[[]|c] s1];
    simpl in *; [|done].
  destruct (load_lockfile_state w (lockfile a)
              (log (EStdout (MsgLoading (lockfile a))) s1)) as [F2 R2].
  rewrite R2, requests_log_stdout. split; [done|].
  intros p Hp. unfold path_exists. rewrite F2. by apply M1.
Qed.

(** With every destination on disk and [--force] unset, the loop makes
    no request, changes no file and succeeds everywhere. *)
Lemma attempt_each_cached w base urls i n s :
  Forall (fun u => cached base u s = true) urls ->
  let r := attempt_each w base false urls i n s in
  Forall (fun x => x.2 = true) r.1
  /\ requests r.2 = requests s /\ fs r.2 = fs s.
Proof.
  revert i s. induction urls as [|u urls IH]; intros i s Hall; simpl.
  { by split; [constructor|]. }
  inversion Hall as [|? ? Hu Hrest]; subst.
  destruct (download_cached w u base (log (EStdout (MsgProcessing i n)) s) Hu)
    as [m ->].
  set (s1 := log (EStdout m) (log (EStdout (MsgProcessing i n)) s)).
  destruct (IH (S i) s1) as (A & R & F); [exact Hrest|].
  destruct (attempt_each _ _ _ _ _ _ _) as [rs s2]. simpl in *.
  split; [by constructor|]. rewrite R, F. unfold s1.
  by rewrite !requests_log_stdout.
Qed.

(** When every attempt succeeds, every destination is on disk at the
    end and nothing that was there has gone. *)
Lemma attempt_each_success w base force urls i n s :
  let r := attempt_each w base force urls i n s in
  Forall (fun x => x.2 = true) r.1 ->
  (forall p, path_exists s p = true -> path_exists r.2 p = true)
  /\ Forall (fun u => cached base u r.2 = true) urls.
Proof.
  revert i s. induction urls as [|u urls IH]; intros i s; simpl.
  { by split; [|constructor]. }
  destruct (download_package _ _ _ _ _) as [ok s1] eqn:E.
  specialize (IH (S i) s1).
  destruct (attempt_each _ _ _ _ _ _ _) as [rs s2]. simpl in *.
  intros Hall. inversion Hall as [|? ? Hok Hrest]; subst. simpl in Hok.
  subst ok. apply download_success in E as [Hc Hm].
  destruct (IH Hrest) as [Hm2 Hc2]. split.
  - intros p Hp. apply Hm2, Hm. by rewrite path_exists_log.
  - constructor; [|exact Hc2]. by apply cached_mono with s1.
Qed.

(** After the loop [fetch_all] only prints. *)
Lemma fetch_all_state w a urls s :
  let sa :=
    (attempt_each w (output_dir a) (force a) urls 1 (length urls)
       (log (EStdout (MsgFound (length urls))) s)).2 in
  fs (fetch_all w a urls s).2 = fs sa
  /\ requests (fetch_all w a urls s).2 = requests sa.
Proof.
  cbv zeta. unfold fetch_all. destruct urls as [|u urls].
  { simpl. by rewrite !requests_log_stdout. }
  rewrite process_urls_attempts.
  destruct (_ <? _)%nat; simpl;
    rewrite ?requests_log_stderr, ?requests_log_stdout; done.
Qed.

Lemma main_exit_attempts w a s data s0 :
  setup w a s = (Done data, s0) ->
  (main w a s).1
  = if decide (Forall (fun r => r.2 = true)
                 (attempt_each w (output_dir a) (force a)
                    (extract_conda_package_urls w data).1 1
                    (length (extract_conda_package_urls w data).1)
                    (loop_start w data s0)).1)
    then 0 else 1.
Proof.
  intros Hs. rewrite main_setup, Hs, fetch_all_exit. unfold loop_start.
  by destruct (extract_conda_package_urls w data).
Qed.

End RunFacts.

Section Runs.

Context `{Library}.

(** C3.  In a run that passes the setup, the loop attempts the extracted
    URLs one after the other, each on the state the previous attempt
    left, whatever the earlier outcomes, and [main] ends with the files
    and the requests of the last attempt; the exit code is 0 exactly when
    no attempt failed (in particular when there is no URL) and 1 exactly
    when some attempt failed. *)
Theorem C3_exit_code (w : World) (a : Args) (s s0 : state)
    (lockfile_data : gmap string yaml) :
  setup w a s = (Done lockfile_data, s0) ->
  let conda_urls := (extract_conda_package_urls w lockfile_data).1 in
  let attempts :=
    attempt_each w (output_dir a) (force a) conda_urls 1 (length conda_urls)
      (loop_start w lockfile_data s0) in
  let rs := attempts.1 in
  rs.*1 = conda_urls
  /\ (fs (main w a s).2 = fs attempts.2
      /\ requests (main w a s).2 = requests attempts.2)
  /\ ((main w a s).1 = 0 <-> Forall (fun r => r.2 = true) rs)
  /\ ((main w a s).1 = 1 <-> Exists (fun r => r.2 = false) rs)
  /\ (conda_urls = [] -> (main w a s).1 = 0).
Proof.
  intros Hs. cbv zeta.
  split; [apply attempt_each_urls|]. split.
  { rewrite main_setup, Hs. unfold loop_start.
    destruct (extract_conda_package_urls w lockfile_data) as [urls out].
    apply fetch_all_state. }
  rewrite (main_exit_attempts w a s _ _ Hs).
  destruct (decide _) as [Hall|Hsome].
  - split; [done|]. split; [|done]. split; [done|].
    intros HE. by apply some_failure_iff in HE.
  - split; [done|]. split.
    + split; [|done]. intros _. by apply some_failure_iff.
    + intros Hnil. destruct Hsome. rewrite Hnil. constructor.
Qed.

End Runs.

Section Idempotence.

Context `{Library}.

(** After a run that exits 0, every discovered URL has its destination
    on disk. *)
Lemma clean_run_caches (w : World) (a : Args) (s s0 : state)
    (data : gmap string yaml) (u : string) :
  setup w a s = (Done data, s0) -> (main w a s).1 = 0 ->
  discovered data u -> cached (output_dir a) u (main w a s).2 = true.
Proof.
  intros Hs Hexit Hu.
  rewrite (main_exit_attempts w a s _ _ Hs) in Hexit.
  destruct (decide _) as [Hall|]; [|done].
  apply attempt_each_success in Hall as [_ Hc].
  rewrite Forall_forall in Hc.
  specialize (Hc u (proj2 (elem_of_extract w data u) Hu)).
  revert Hc. rewrite main_setup, Hs. unfold loop_start.
  destruct (extract_conda_package_urls w data) as [urls out]. simpl.
  destruct (fetch_all_state w a urls (emit out (log (EStdout MsgExtracting) s0)))
    as [F _].
  unfold cached, path_exists. by rewrite F.
Qed.

(** A run without [--force] on a state where every discovered URL is
    cached makes no request, changes no file and exits 0. *)
Lemma cached_run (w : World) (a : Args) (s s0 : state)
    (data : gmap string yaml) :
  force a = false -> setup w a s = (Done data, s0) ->
  (forall u, discovered data u -> cached (output_dir a) u s0 = true) ->
  (main w a s).1 = 0
  /\ requests (main w a s).2 = requests s
  /\ fs (main w a s).2 = fs s0.
Proof.
  intros Hf Hs Hc.
  destruct (setup_spec w a s) as [Rs _]. rewrite Hs in Rs. simpl in Rs.
  assert (Forall
            (fun u => cached (output_dir a) u (loop_start w data s0) = true)
            (extract_conda_package_urls w data).1) as Hall.
  { apply Forall_forall. intros u Hu. apply elem_of_extract in Hu.
    apply cached_mono with s0; [|by apply Hc].
    intros p Hp. unfold loop_start.
    by destruct (extract_conda_package_urls w data). }
  apply (attempt_each_cached w (output_dir a) _ 1
           (length (extract_conda_package_urls w data).1)) in Hall
    as (Hok & Rq & Fs).
  rewrite <- Hf in Hok, Rq, Fs. split; [|split].
  - rewrite (main_exit_attempts w a s _ _ Hs). by rewrite decide_True.
  - rewrite main_setup, Hs.
    pose proof (extract_out_stderr w data) as Herr.
    revert Rq. unfold loop_start.
    destruct (extract_conda_package_urls w data) as [urls out].
    simpl in *. intros Rq.
    destruct (fetch_all_state w a urls (emit out (log (EStdout MsgExtracting) s0)))
      as [_ R]. rewrite R, Rq, requests_log_stdout, requests_emit.
    + by rewrite requests_log_stdout.
    + intros e He u ->. by destruct (Herr _ He).
  - rewrite main_setup, Hs. revert Fs. unfold loop_start.
    destruct (extract_conda_package_urls w data) as [urls out].
    simpl. intros Fs.
    destruct (fetch_all_state w a urls (emit out (log (EStdout MsgExtracting) s0)))
      as [F _]. by rewrite F, Fs.
Qed.

(** C4, as the code has it.  (1) When the destination of a URL and its
    directory are on disk and [--force] is unset, the call returns [True]
    after one line on stdout: no request, no change on disk.  (2) After a
    run without [--force] that exits 0, a second run on the state it left,
    in any world, that passes the setup with the same document makes no
    request, changes no file and exits 0.  (3) With [--force], a URL whose
    destination can be derived and whose platform directory exists or can
    be created is requested, whether or not the file is there. *)
Theorem C4_cache_hit_idempotence_force :
  (forall (w : World) (url base : string) (s : state),
     cached base url s = true ->
     exists m, download_package w url base false s = (true, log (EStdout m) s))
  /\ (forall (w1 w2 : World) (a : Args) (s s0 s0' : state)
        (data : gmap string yaml),
        force a = false ->
        setup w1 a s = (Done data, s0) ->
        (main w1 a s).1 = 0 ->
        setup w2 a (main w1 a s).2 = (Done data, s0') ->
        (main w2 a (main w1 a s).2).1 = 0
        /\ requests (main w2 a (main w1 a s).2).2 = requests (main w1 a s).2
        /\ fs (main w2 a (main w1 a s).2).2 = fs s0')
  /\ (forall (w : World) (url base path : string) (s : state),
        urlparse_path url = Some path -> derivable path = true ->
        path_exists s (platform_dir base path) = true
        \/ makedirs_ok w (platform_dir base path) = true ->
        requests (download_package w url base true s).2 = requests s ++ [url]).
Proof.
  split; [|split].
  - intros w url base s Hc. by apply download_cached.
  - intros w1 w2 a s s0 s0' data Hf Hs1 Hexit Hs2.
    apply (cached_run w2 a _ s0' data Hf Hs2).
    intros u Hu.
    destruct (setup_spec w2 a (main w1 a s).2) as [_ Hm].
    rewrite Hs2 in Hm. simpl in Hm.
    apply cached_mono with (main w1 a s).2; [exact Hm|].
    by apply (clean_run_caches w1 a s s0 data).
  - intros w url base path s Hp Hd Hdir. by apply download_forced with path.
Qed.

End Idempotence.

Section Extraction.

Implicit Types (w : World) (data : gmap string yaml).

(** C5.  The [environments] traversal runs only when the top-level
    traversal found no URL, and its result is never merged with the
    other: if the top level yields a URL, the result is the top-level
    set and the message announcing the fallback is not printed; that
    message is printed only when the top-level set is empty; and then the
    result is the set found under [environments]. *)
Theorem C5_fallback_only_when_primary_empty w data :
  ((primary data).1 <> ∅ ->
   (extract_conda_package_urls w data).1 = set_iter w (primary data).1
   /\ (EStderr MsgCheckingEnvironments
       ∉ (extract_conda_package_urls w data).2)
   /\ (forall u, u ∈ (extract_conda_package_urls w data).1
         <-> exists e, e ∈ primary_entries data /\ entry_url e = Some u))
  /\ (EStderr MsgCheckingEnvironments ∈ (extract_conda_package_urls w data).2
      <-> (primary data).1 = ∅
          /\ exists environments,
               data !! "environments" = Some (YMap environments))
  /\ (forall environments,
        (primary data).1 = ∅ ->
        data !! "environments" = Some (YMap environments) ->
        (extract_conda_package_urls w data).1
        = set_iter w (fallback environments)).
Proof.
  assert (EStderr MsgCheckingEnvironments ∉ (primary data).2) as Hnot.
  { rewrite primary_spec. simpl. rewrite list_elem_of_fmap.
    by intros (v & ? & _). }
  split; [|split].
  - intros Hne. rewrite extract_primary by done. simpl.
    split; [done|]. split; [done|]. intros u.
    by rewrite elem_of_set_iter, elem_of_primary.
  - destruct (decide ((primary data).1 = ∅)) as [He|Hne].
    2: { rewrite extract_primary by done. simpl. split; [done|].
         by intros [? _]. }
    destruct (data !! "environments") as [v|] eqn:Henv.
    2: { rewrite extract_nothing by (done || congruence). simpl.
         rewrite elem_of_app, list_elem_of_singleton. split.
         - by intros [?|?].
         - by intros [_ [? ?]]. }
    destruct (mapping_or_not v) as [[d ->]|Hnd].
    + rewrite (extract_fallback w data d) by done. simpl. split.
      * intros _. split; [done|]. by exists d.
      * intros _. rewrite !elem_of_app, list_elem_of_singleton. by left; right.
    + rewrite extract_nothing; [|done|].
      2: { intros d Hd. apply Hnd. exists d. congruence. }
      simpl. rewrite elem_of_app, list_elem_of_singleton. split.
      * by intros [?|?].
      * intros [_ [d Hd]]. destruct Hnd. exists d. congruence.
  - intros environments He Henv. by rewrite (extract_fallback w data environments).
Qed.

(** C6, as the code has it.  The warnings of the extraction are exactly
    those for the top-level entries that are mappings with a [conda] value
    that is not a string starting with [http], one per such entry, in
    order, each naming the value; entries of any other shape, and all
    entries under [environments], are skipped in silence.  The remaining
    messages are the two informational ones, and an entry that is not
    accepted contributes no URL. *)
Theorem C6_warnings_of_extraction w data :
  (exists info,
     (extract_conda_package_urls w data).2
     = ((fun v => EStderr (MsgSkipMalformed v))
          <$> omap entry_rejected (primary_entries data)) ++ info
     /\ forall ev, ev ∈ info ->
          ev = EStderr MsgCheckingEnvironments \/ ev = EStderr MsgNoUrlsFound)
  /\ (forall v, EStderr (MsgSkipMalformed v)
                ∈ (extract_conda_package_urls w data).2
        <-> exists e, e ∈ primary_entries data /\ entry_rejected e = Some v)
  /\ (forall u, u ∈ (extract_conda_package_urls w data).1 ->
        discovered data u).
Proof.
  assert (exists info,
     (extract_conda_package_urls w data).2
     = ((fun v => EStderr (MsgSkipMalformed v))
          <$> omap entry_rejected (primary_entries data)) ++ info
     /\ forall ev, ev ∈ info ->
          ev = EStderr MsgCheckingEnvironments \/ ev = EStderr MsgNoUrlsFound)
    as Hinfo.
  { assert ((primary data).2
            = (fun v => EStderr (MsgSkipMalformed v))
                <$> omap entry_rejected (primary_entries data)) as Hp
      by (by rewrite primary_spec).
    destruct (decide ((primary data).1 = ∅)) as [He|Hne].
    2: { rewrite extract_primary by done. simpl. exists [].
         rewrite app_nil_r. split; [done|]. by intros ? ?%elem_of_nil. }
    destruct (data !! "environments") as [v|] eqn:Henv.
    2: { rewrite extract_nothing by (done || congruence). simpl.
         exists [EStderr MsgNoUrlsFound]. rewrite Hp. split; [done|].
         intros ev ->%list_elem_of_singleton. by right. }
    destruct (mapping_or_not v) as [[d ->]|Hnd].
    - rewrite (extract_fallback w data d) by done. simpl.
      eexists. rewrite Hp, <- app_assoc. split; [reflexivity|].
      intros ev. rewrite elem_of_app, list_elem_of_singleton.
      intros [->|Hin]; [by left|].
      destruct (set_is_empty _); [|by apply elem_of_nil in Hin].
      apply list_elem_of_singleton in Hin as ->. by right.
    - rewrite extract_nothing; [|done|].
      2: { intros d Hd. apply Hnd. exists d. congruence. }
      simpl. exists [EStderr MsgNoUrlsFound]. rewrite Hp. split; [done|].
      intros ev ->%list_elem_of_singleton. by right. }
  split; [exact Hinfo|]. split.
  - intros v. destruct Hinfo as (info & -> & Hi).
    rewrite elem_of_app, list_elem_of_fmap. split.
    + intros [(v' & [= <-] & Hin)|Hin].
      * by apply list_elem_of_omap in Hin.
      * by destruct (Hi _ Hin).
    + intros Hin. left. exists v. split; [done|].
      by apply list_elem_of_omap.
  - intros u. apply elem_of_extract.
Qed.


(** C10.  The filter is the prefix test and nothing more: every returned
    string starts with [http]; a string under the [conda] key of a
    top-level mapping is returned exactly when it starts with [http], and
    so is one under [environments] when that traversal runs, the same
    rule deciding every entry wherever it is found; so the string
    [httpgarbage], which is no URL, is returned. *)
Theorem C10_prefix_filter w data :
  (forall u, u ∈ (extract_conda_package_urls w data).1 ->
     PyStr.startswith u "http" = true)
  /\ (forall d u, YMap d ∈ primary_entries data ->
        d !! "conda" = Some (YStr u) ->
        (u ∈ (extract_conda_package_urls w data).1
         <-> PyStr.startswith u "http" = true))
  /\ (forall environments env_name env_data platforms platform l d u,
        (primary data).1 = ∅ ->
        data !! "environments" = Some (YMap environments) ->
        environments !! env_name = Some (YMap env_data) ->
        env_data !! "packages" = Some (YMap platforms) ->
        platforms !! platform = Some (YList l) ->
        YMap d ∈ l -> d !! "conda" = Some (YStr u) ->
        (u ∈ (extract_conda_package_urls w data).1
         <-> PyStr.startswith u "http" = true))
  /\ (forall d u, d !! "conda" = Some (YStr u) ->
        (entry_url (YMap d) = Some u <-> PyStr.startswith u "http" = true))
  /\ (extract_conda_package_urls w Ex.doc_garbage).1 = ["httpgarbage"].
Proof.
  assert (forall d u, d !! "conda" = Some (YStr u) ->
            (entry_url (YMap d) = Some u <-> PyStr.startswith u "http" = true))
    as Hrule.
  { intros d u Hd. unfold entry_url. rewrite Hd.
    destruct (PyStr.startswith u "http"); split; congruence. }
  assert (forall u, u ∈ (extract_conda_package_urls w data).1 ->
            PyStr.startswith u "http" = true) as Hpre.
  { intros u Hu. apply elem_of_extract in Hu
      as [(e & _ & He)|(_ & envs & _ & (? & ? & ? & ? & ? & e & Hx))].
    - by apply entry_url_prefix with e.
    - destruct Hx as (_ & _ & _ & _ & He). by apply entry_url_prefix with e. }
  split; [exact Hpre|]. split; [|split; [|split; [exact Hrule|]]].
  - intros d u Hin Hd. split; [apply Hpre|].
    intros Hu. apply elem_of_extract. left. exists (YMap d).
    split; [done|]. by apply Hrule.
  - intros envs env_name env_data platforms platform l d u He Henv H1 H2 H3
      Hin Hd.
    split; [apply Hpre|]. intros Hu. apply elem_of_extract. right.
    split; [by apply primary_empty|]. exists envs. split; [done|].
    exists env_name, env_data, platforms, platform, l, (YMap d).
    repeat (split; [done|]). by apply Hrule.
  - assert (omap entry_url (primary_entries Ex.doc_garbage) = ["httpgarbage"])
      as Hl by (vm_compute; reflexivity).
    assert ((primary Ex.doc_garbage).1 = {["httpgarbage"]}) as Hp.
    { rewrite primary_spec. simpl fst. rewrite Hl. simpl. set_solver. }
    rewrite extract_primary; simpl; rewrite Hp; [apply set_iter_singleton|].
    intros E. assert ("httpgarbage" ∈ (∅ : gset string)) as Habs
      by (rewrite <- E; set_solver). set_solver.
Qed.

End Extraction.

Section Loader.

Context `{Library}.

(** C9, as the code has it.  [load_lockfile] ends the run, always with
    code 1, exactly when the path does not exist, or is not a regular
    file, or cannot be opened, read or decoded, or its text is not valid
    YAML, or the text parses to something that is not a mapping.
    Otherwise it returns the parsed mapping, printing a warning exactly
    when the [version] field is absent or differs from 6, and it never
    changes a file. *)
Theorem C9_load_lockfile (w : World) (lockfile_path : string) (s : state) :
  ((exists c, (load_lockfile w lockfile_path s).1 = Exited c)
   <-> fs s !! lockfile_path = None
       \/ fs s !! lockfile_path = Some Dir
       \/ fs s !! lockfile_path = Some Special
       \/ exists text,
            fs s !! lockfile_path = Some (File text)
            /\ (read_ok w lockfile_path = false
                \/ yaml_safe_load text = None
                \/ exists v, yaml_safe_load text = Some v
                             /\ forall d, v <> YMap d))
  /\ (forall c, (load_lockfile w lockfile_path s).1 = Exited c -> c = 1)
  /\ (forall text data,
        fs s !! lockfile_path = Some (File text) ->
        read_ok w lockfile_path = true ->
        yaml_safe_load text = Some (YMap data) ->
        load_lockfile w lockfile_path s
        = (Done data,
           if version_supported data then s
           else log (EStderr (MsgVersionWarning (data !! "version"))) s))
  /\ fs (load_lockfile w lockfile_path s).2 = fs s.
Proof.
  split; [|split; [|split]].
  - unfold load_lockfile.
    destruct (fs s !! lockfile_path) as [[|text|]|] eqn:Hn; simpl.
    + split; [auto|]. intros _. by eexists.
    + destruct (read_ok w lockfile_path) eqn:Hr; simpl.
      2: { split; [|intros _; by eexists]. intros _.
           do 3 right. exists text. auto. }
      destruct (yaml_safe_load text) as [v|] eqn:Hy; simpl.
      2: { split; [|intros _; by eexists]. intros _.
           do 3 right. exists text. auto. }
      destruct v as [| | | | | |d|];
        try (split; [|intros _; by eexists]; intros _; do 3 right;
             exists text; split; [done|]; do 2 right; eexists;
             split; [done|]; congruence).
      split.
      * destruct (version_supported d); by intros [c Hc].
      * intros [?|[?|[?|(t & Ht & Hcase)]]]; try congruence.
        injection Ht as <-.
        destruct Hcase as [?|[?|(v & Hv1 & Hv2)]]; [congruence..|].
        destruct (Hv2 d). congruence.
    + split; [auto|]. intros _. by eexists.
    + split; [auto|]. intros _. by eexists.
  - intros c. unfold load_lockfile.
    destruct (fs s !! lockfile_path) as [[|text|]|]; simpl; try congruence.
    destruct (read_ok w lockfile_path); simpl; try congruence.
    destruct (yaml_safe_load text) as [[| | | | | |d|]|]; simpl;
      try congruence.
    destruct (version_supported d); simpl; congruence.
  - intros text data Hn Hr Hy. unfold load_lockfile.
    rewrite Hn, Hr, Hy. by destruct (version_supported data).
  - apply load_lockfile_state.
Qed.

End Loader.

(* ===================================================================== *)
(** * Concrete runs *)
(* ===================================================================== *)

Section Checks.

#[local] Existing Instance Ex.py.


(** The examples of the specification: two packages into an empty
    output directory, and a package that is already there. *)
Example spec_example_two_packages :
  let r := fetch_all Ex.w_ok Ex.args_plain
             (extract_conda_package_urls Ex.w_ok Ex.doc_foo_bar).1
             Ex.fresh_state in
  r.1 = 0
  /\ fs r.2 !! "out/linux-64/foo-1.0-0.conda" = Some (File "PKdata")
  /\ fs r.2 !! "out/noarch/bar-2.0-0.conda" = Some (File "PKdata").
Proof. vm_compute. repeat split. Qed.

Example spec_example_already_present :
  let r := fetch_all Ex.w_ok Ex.args_plain
             (extract_conda_package_urls Ex.w_ok Ex.doc_foo_bar).1
             Ex.mirrored_state in
  r.1 = 0 /\ requests r.2 = [Ex.bar_url]
  /\ fs r.2 !! Ex.dest = Some (File "complete").
Proof. vm_compute. repeat split. Qed.

Example urlparse_conda :
  UrlParse.urlparse_path Ex.forge_foo_url
  = Some "/conda-forge/linux-64/foo-1.0-0.conda".
Proof. vm_compute. reflexivity. Qed.

Example urlparse_params_query_fragment :
  UrlParse.urlparse_path "http://h/a/b;x=1?q#f" = Some "/a/b".
Proof. vm_compute. reflexivity. Qed.

Example urlparse_no_scheme :
  UrlParse.urlparse_path "httpgarbage" = Some "httpgarbage".
Proof. vm_compute. reflexivity. Qed.

Example urlparse_no_path : UrlParse.urlparse_path "http://h" = Some "".
Proof. vm_compute. reflexivity. Qed.

Example basename_trailing_slash : PosixPath.basename "/a/b/" = "".
Proof. vm_compute. reflexivity. Qed.

Example split_double_slash : PyStr.split "/" "//x/" = [""; ""; "x"; ""].
Proof. vm_compute. reflexivity. Qed.

Example join_plain : PosixPath.join "out" "linux-64" = "out/linux-64".
Proof. vm_compute. reflexivity. Qed.

Example join_trailing : PosixPath.join "out/" "noarch" = "out/noarch".
Proof. vm_compute. reflexivity. Qed.

(** A path ending in a slash has two segments and no file name: the
    call fails without a request. *)
Example trailing_slash_fails :
  download_package Ex.w_ok "https://repo.example/linux-64/pkgs/" "out" false
    Ex.fresh_state
  = (false,
     log (EStderr (MsgNoFilename "https://repo.example/linux-64/pkgs/"))
       Ex.fresh_state).
Proof. vm_compute. reflexivity. Qed.

(** With URLs at the top level the ones under [environments] are left
    out; without, they are the result. *)
Example fallback_not_merged :
  extract_conda_package_urls Ex.w_ok Ex.doc_both = ([Ex.foo_url], [])
  /\ extract_conda_package_urls Ex.w_ok Ex.doc_env_only
     = ([Ex.bar_url], [EStderr MsgCheckingEnvironments]).
Proof. vm_compute. split; reflexivity. Qed.

(** Spellings that differ in a trailing slash, an empty query or the case
    of the host are four URLs. *)
Example no_normalisation :
  length (extract_conda_package_urls Ex.w_ok Ex.doc_variants).1 = 4.
Proof. vm_compute. reflexivity. Qed.

(** A rejected [conda] value at the top level is named in a warning. *)
Example rejected_value_warned :
  extract_conda_package_urls Ex.w_ok Ex.doc_rejected
  = ([Ex.foo_url],
     [EStderr (MsgSkipMalformed (YStr "ftp://repo.example/linux-64/foo.conda"))]).
Proof. vm_compute. reflexivity. Qed.

(** ** Witnesses *)


Lemma C3_witness :
  let s0 := (setup Ex.w_ok Ex.args_plain Ex.fresh_state).2 in
  let conda_urls := (extract_conda_package_urls Ex.w_ok Ex.doc_foo).1 in
  let attempts :=
    attempt_each Ex.w_ok "out" false conda_urls 1 (length conda_urls)
      (loop_start Ex.w_ok Ex.doc_foo s0) in
  let rs := attempts.1 in
  setup Ex.w_ok Ex.args_plain Ex.fresh_state = (Done Ex.doc_foo, s0)
  /\ rs.*1 = conda_urls
  /\ (fs (main Ex.w_ok Ex.args_plain Ex.fresh_state).2 = fs attempts.2
      /\ requests (main Ex.w_ok Ex.args_plain Ex.fresh_state).2
         = requests attempts.2)
  /\ ((main Ex.w_ok Ex.args_plain Ex.fresh_state).1 = 0
      <-> Forall (fun r => r.2 = true) rs)
  /\ ((main Ex.w_ok Ex.args_plain Ex.fresh_state).1 = 1
      <-> Exists (fun r => r.2 = false) rs)
  /\ (conda_urls = [] -> (main Ex.w_ok Ex.args_plain Ex.fresh_state).1 = 0).
Proof.
  cbv zeta.
  assert (setup Ex.w_ok Ex.args_plain Ex.fresh_state
          = (Done Ex.doc_foo, (setup Ex.w_ok Ex.args_plain Ex.fresh_state).2))
    as H1 by (vm_compute; reflexivity).
  split; [exact H1|].
  exact (C3_exit_code Ex.w_ok Ex.args_plain Ex.fresh_state _ Ex.doc_foo H1).
Defined.

Lemma C8_witness :
  let p1 := "/linux-64/foo-1.0-0.conda" in
  let p2 := "/conda-forge/linux-64/foo-1.0-0.conda" in
  urlparse_path Ex.foo_url = Some p1
  /\ urlparse_path Ex.forge_foo_url = Some p2
  /\ derivable p1 = true /\ derivable p2 = true
  /\ (destination_of "out" Ex.foo_url = destination_of "out" Ex.forge_foo_url
      <-> second_to_last (path_components p1)
          = second_to_last (path_components p2)
          /\ PosixPath.basename p1 = PosixPath.basename p2).
Proof.
  cbv zeta.
  assert (urlparse_path Ex.foo_url = Some "/linux-64/foo-1.0-0.conda") as H1
    by (vm_compute; reflexivity).
  assert (urlparse_path Ex.forge_foo_url
          = Some "/conda-forge/linux-64/foo-1.0-0.conda") as H2
    by (vm_compute; reflexivity).
  assert (derivable "/linux-64/foo-1.0-0.conda" = true) as H3
    by (vm_compute; reflexivity).
  assert (derivable "/conda-forge/linux-64/foo-1.0-0.conda" = true) as H4
    by (vm_compute; reflexivity).
  split; [exact H1|]. split; [exact H2|]. split; [exact H3|].
  split; [exact H4|].
  exact (C8_destination_by_last_two_segments "out" _ _ _ _ H1 H2 H3 H4).
Defined.


(** The mirror is built while the servers answer; the second run finds
    them all down and does not notice. *)
Lemma C4_witness :
  let run1 := main Ex.w_ok Ex.args_plain Ex.fresh_state in
  let s0 := (setup Ex.w_ok Ex.args_plain Ex.fresh_state).2 in
  let s0' := (setup Ex.w_404 Ex.args_plain run1.2).2 in
  let run2 := main Ex.w_404 Ex.args_plain run1.2 in
  force Ex.args_plain = false
  /\ setup Ex.w_ok Ex.args_plain Ex.fresh_state = (Done Ex.doc_foo, s0)
  /\ run1.1 = 0
  /\ setup Ex.w_404 Ex.args_plain run1.2 = (Done Ex.doc_foo, s0')
  /\ run2.1 = 0 /\ requests run2.2 = requests run1.2 /\ fs run2.2 = fs s0'.
Proof.
  cbv zeta.
  assert (setup Ex.w_ok Ex.args_plain Ex.fresh_state
          = (Done Ex.doc_foo, (setup Ex.w_ok Ex.args_plain Ex.fresh_state).2))
    as H1 by (vm_compute; reflexivity).
  assert ((main Ex.w_ok Ex.args_plain Ex.fresh_state).1 = 0) as H2
    by (vm_compute; reflexivity).
  assert (setup Ex.w_404 Ex.args_plain
            (main Ex.w_ok Ex.args_plain Ex.fresh_state).2
          = (Done Ex.doc_foo,
             (setup Ex.w_404 Ex.args_plain
                (main Ex.w_ok Ex.args_plain Ex.fresh_state).2).2))
    as H3 by (vm_compute; reflexivity).
  split; [reflexivity|]. split; [exact H1|]. split; [exact H2|].
  split; [exact H3|].
  exact (proj1 (proj2 C4_cache_hit_idempotence_force) Ex.w_ok Ex.w_404
           Ex.args_plain Ex.fresh_state _ _ Ex.doc_foo eq_refl H1 H2 H3).
Defined.

Lemma C5_witness :
  (primary Ex.doc_both).1 <> ∅
  /\ (extract_conda_package_urls Ex.w_ok Ex.doc_both).1
     = set_iter Ex.w_ok (primary Ex.doc_both).1
  /\ (EStderr MsgCheckingEnvironments
      ∉ (extract_conda_package_urls Ex.w_ok Ex.doc_both).2)
  /\ (forall u, u ∈ (extract_conda_package_urls Ex.w_ok Ex.doc_both).1
        <-> exists e, e ∈ primary_entries Ex.doc_both /\ entry_url e = Some u).
Proof.
  assert ((primary Ex.doc_both).1 <> ∅) as H1.
  { rewrite primary_spec.
    assert (omap entry_url (primary_entries Ex.doc_both) = [Ex.foo_url])
      as -> by (vm_compute; reflexivity).
    apply list_to_set_cons_nonempty. }
  split; [exact H1|].
  exact (proj1 (C5_fallback_only_when_primary_empty Ex.w_ok Ex.doc_both) H1).
Defined.

Lemma C9_witness :
  fs Ex.fresh_state !! "pixi.lock" = Some (File Ex.lock_foo_text)
  /\ read_ok Ex.w_ok "pixi.lock" = true
  /\ yaml_safe_load Ex.lock_foo_text = Some (YMap Ex.doc_foo)
  /\ load_lockfile Ex.w_ok "pixi.lock" Ex.fresh_state
     = (Done Ex.doc_foo,
        if version_supported Ex.doc_foo then Ex.fresh_state
        else log (EStderr (MsgVersionWarning (Ex.doc_foo !! "version")))
               Ex.fresh_state).
Proof.
  assert (fs Ex.fresh_state !! "pixi.lock" = Some (File Ex.lock_foo_text))
    as H1 by (vm_compute; reflexivity).
  assert (yaml_safe_load Ex.lock_foo_text = Some (YMap Ex.doc_foo)) as H3
    by (vm_compute; reflexivity).
  split; [exact H1|]. split; [reflexivity|]. split; [exact H3|].
  exact (proj1 (proj2 (proj2
           (C9_load_lockfile Ex.w_ok "pixi.lock" Ex.fresh_state)))
           _ _ H1 eq_refl H3).
Defined.

(** ** Where the specification and the code part *)


(** C4 fails on the code.  When the server answers 404, the second run
    requests the URL again and exits 1; and under [--force] a URL with a
    single path segment is not requested at all. *)
Lemma C4_counterexample :
  (let run1 := main Ex.w_404 Ex.args_plain Ex.fresh_state in
   let run2 := main Ex.w_404 Ex.args_plain run1.2 in
   run2.1 = 1 /\ requests run2.2 = requests run1.2 ++ [Ex.foo_url])
  /\ requests (download_package Ex.w_ok Ex.flat_url "out" true Ex.fresh_state).2
     = [].
Proof. vm_compute. repeat split. Qed.

(** C6 fails on the code.  A top-level entry that is not a mapping, one
    without a [conda] field, and two malformed entries under
    [environments] are all skipped without a warning. *)
Lemma C6_counterexample :
  extract_conda_package_urls Ex.w_ok Ex.doc_silent
  = ([], [EStderr MsgCheckingEnvironments; EStderr MsgNoUrlsFound]).
Proof. vm_compute. reflexivity. Qed.


(** C8 fails on the code.  Two different URLs of one lockfile, from two
    channels, are both in the set and have one destination. *)
Lemma C8_counterexample :
  Ex.foo_url <> Ex.forge_foo_url
  /\ Ex.foo_url ∈ (extract_conda_package_urls Ex.w_ok Ex.doc_collide).1
  /\ Ex.forge_foo_url ∈ (extract_conda_package_urls Ex.w_ok Ex.doc_collide).1
  /\ destination_of "out" Ex.foo_url = Some Ex.dest
  /\ destination_of "out" Ex.forge_foo_url = Some Ex.dest.
Proof.
  split; [discriminate|].
  assert ((extract_conda_package_urls Ex.w_ok Ex.doc_collide).1
          = [Ex.forge_foo_url; Ex.foo_url]) as -> by (vm_compute; reflexivity).
  split; [apply list_elem_of_further, list_elem_of_here|].
  split; [apply list_elem_of_here|].
  split; vm_compute; reflexivity.
Qed.

(** C9 fails on the code.  The lockfile exists, is a regular file and
    holds a valid YAML mapping, but cannot be read: the run ends with
    code 1 all the same. *)
Lemma C9_counterexample :
  fs Ex.fresh_state !! "pixi.lock" = Some (File Ex.lock_foo_text)
  /\ yaml_safe_load Ex.lock_foo_text = Some (YMap Ex.doc_foo)
  /\ (load_lockfile Ex.world_unreadable "pixi.lock" Ex.fresh_state).1
     = Exited 1.
Proof. vm_compute. repeat split. Qed.

End Checks.

(* ===================================================================== *)
(** * Further properties of [download_package] *)
(* ===================================================================== *)

Section DownloadTrace.

Context `{Library}.
Implicit Types (w : World) (s : state) (url base path p dir dest : string).

Lemma ensure_dir_trace w dir s b s1 :
  ensure_platform_dir w dir s = (b, s1) ->
  if b then
    trace s1 = trace s
    \/ trace s1 = trace s ++ [EStdout (MsgCreatedPlatformDir dir)]
  else trace s1 = trace s ++ [EStderr (MsgPlatformDirError dir)].
Proof.
  unfold ensure_platform_dir.
  destruct (path_exists s dir); [intros [= <- <-]; by left|].
  destruct (makedirs_ok w dir); intros [= <- <-]; [by right|done].
Qed.

Lemma fetch_to_trace w url file dir dest s o s2 :
  fetch_to w url file dir dest s = (o, s2) ->
  trace s2
  = trace s ++ EStdout (MsgDownloading file dir url) :: EHttpGet url
      :: match o with
         | Returned _ => [EStdout (MsgDownloaded file dir)]
         | Raised _ => []
         end.
Proof.
  unfold fetch_to.
  destruct (http_get w url) as [e|status chunks stream_err].
  { intros [= <- <-]. simpl. by rewrite <- app_assoc. }
  destruct (raises_for_status status).
  { intros [= <- <-]. simpl. by rewrite <- app_assoc. }
  destruct (can_open_wb _ _ _ _).
  2: { intros [= <- <-]. simpl. by rewrite <- app_assoc. }
  destruct stream_err as [e|]; intros [= <- <-]; simpl;
    rewrite trace_fs_write; simpl; by rewrite <- !app_assoc.
Qed.

Lemma cleanup_trace w dest file s :
  exists es, trace (cleanup w dest file s) = trace s ++ es
             /\ Forall (fun e => is_stderr e = true) es.
Proof.
  unfold cleanup. destruct (_ && _ && _).
  2: { exists []. by rewrite app_nil_r. }
  destruct (path_getsize s dest =? 0)%nat, (remove_ok w dest); simpl;
    rewrite <- ?app_assoc; eexists; (split; [reflexivity|]);
    repeat constructor.
Qed.

(** Everything a call prints, classified. *)
Lemma download_trace w url base force s :
  let r := download_package w url base force s in
  exists es,
    trace r.2 = trace s ++ es /\ es <> []
    /\ Forall (fun e => forall i n, e <> EStdout (MsgProcessing i n)) es
    /\ (r.1 = true <-> Forall (fun e => is_stderr e = false) es).
Proof.
  cbv zeta. destruct (urlparse_path url) as [path|] eqn:Hp.
  2: { rewrite download_unparsed by done. simpl. eexists.
       split; [reflexivity|]. split; [done|]. split; [by repeat constructor|].
       split; [done|]. by inversion 1. }
  destruct (derivable path) eqn:Hd.
  2: { destruct (download_underivable w url base force s path Hp Hd)
         as [m ->]. simpl. eexists.
       split; [reflexivity|]. split; [done|]. split; [by repeat constructor|].
       split; [done|]. by inversion 1. }
  rewrite (download_derivable _ _ _ _ _ _ Hp Hd).
  destruct (ensure_platform_dir _ _ _) as [b s1] eqn:E1.
  pose proof (ensure_dir_trace _ _ _ _ _ E1) as T1.
  destruct b.
  2: { simpl. eexists. split; [exact T1|]. split; [done|].
       split; [by repeat constructor|]. split; [done|]. by inversion 1. }
  assert (exists e1, trace s1 = trace s ++ e1
            /\ Forall (fun e => forall i n, e <> EStdout (MsgProcessing i n)) e1
            /\ Forall (fun e => is_stderr e = false) e1) as (e1 & T1' & P1 & Q1).
  { destruct T1 as [T1|T1].
    - exists []. rewrite app_nil_r. by repeat split.
    - eexists. split; [exact T1|]. split; by repeat constructor. }
  destruct (negb force && _).
  { simpl. rewrite T1', <- app_assoc. eexists. split; [reflexivity|].
    split; [by destruct e1|]. split.
    - apply Forall_app. split; [done|]. by repeat constructor.
    - split; [|done]. intros _. apply Forall_app. split; [done|].
      by repeat constructor. }
  destruct (fetch_to _ _ _ _ _ _) as [o s2] eqn:E2.
  pose proof (fetch_to_trace _ _ _ _ _ _ _ _ E2) as T2.
  destruct (fetch_to_spec _ _ _ _ _ _ _ _ E2) as (_ & _ & _ & _ & P2).
  destruct o as [b|e]; simpl.
  - destruct P2 as [-> _]. rewrite T2, T1', <- app_assoc. eexists.
    split; [reflexivity|]. split; [by destruct e1|]. split.
    + apply Forall_app. split; [done|]. by repeat constructor.
    + split; [|done]. intros _. apply Forall_app. split; [done|].
      by repeat constructor.
  - destruct (cleanup_trace w (destination base path) (PosixPath.basename path)
                (log (EStderr (handler_message e (PosixPath.basename path) url))
                   s2)) as (e3 & T3 & P3).
    rewrite T3, trace_log, T2, T1', <- !app_assoc. simpl. eexists.
    split; [reflexivity|]. split; [by destruct e1|]. split.
    + apply Forall_app. split; [done|]. do 3 (constructor; [done|]).
      eapply Forall_impl; [exact P3|]. intros [] ? ? ?; done.
    + split; [done|]. intros HF. apply Forall_app in HF as [_ HF].
      inversion HF as [|? ? _ HF2]; subst. inversion HF2 as [|? ? _ HF3]; subst.
      by inversion HF3.
Qed.

End DownloadTrace.

Section DownloadMore.

Context `{Library}.
Implicit Types (w : World) (s : state) (url base path p dir dest : string).

(** The directory step leaves every node where it was. *)
Lemma ensure_dir_keeps w dir s b s1 p nd :
  ensure_platform_dir w dir s = (b, s1) ->
  fs s !! p = Some nd -> fs s1 !! p = Some nd.
Proof.
  unfold ensure_platform_dir. destruct (path_exists s dir) eqn:Hex.
  { by intros [= <- <-]. }
  apply path_exists_false in Hex.
  destruct (makedirs_ok w dir); intros [= <- <-] Hp; [|done].
  rewrite fs_log, lookup_fs_put. destruct (decide (dir = p)); [|done].
  congruence.
Qed.

Lemma fs_write_keeps_dir dest c s p :
  path_isdir s dest = false ->
  fs s !! p = Some Dir -> fs (fs_write dest c s) !! p = Some Dir.
Proof.
  intros Hnd Hp. destruct (decide (dest = p)) as [->|Hne].
  - unfold path_isdir in Hnd. by rewrite Hp in Hnd.
  - by rewrite lookup_fs_write_ne.
Qed.

Lemma fetch_to_keeps_dir w url file dir dest s o s2 p :
  fetch_to w url file dir dest s = (o, s2) ->
  fs s !! p = Some Dir -> fs s2 !! p = Some Dir.
Proof.
  unfold fetch_to.
  destruct (http_get w url) as [e|status chunks stream_err];
    [by intros [= <- <-]|].
  destruct (raises_for_status status); [by intros [= <- <-]|].
  destruct (can_open_wb _ _ _ _) eqn:Hopen; [|by intros [= <- <-]].
  unfold can_open_wb in Hopen.
  apply andb_true_iff in Hopen as [_ Hnd%negb_true_iff].
  destruct stream_err; intros [= <- <-] Hp; rewrite ?fs_log;
    by apply fs_write_keeps_dir.
Qed.

(** The fetch leaves a regular file at the destination regular. *)
Lemma fetch_to_keeps_file w url file dir dest s o s2 :
  fetch_to w url file dir dest s = (o, s2) ->
  path_isfile s dest = true -> path_isfile s2 dest = true.
Proof.
  assert (forall c s0, path_isfile s0 dest = true ->
            path_isfile (fs_write dest c s0) dest = true) as Hw.
  { intros c s0. unfold path_isfile, fs_write.
    destruct (fs s0 !! dest) as [[]|] eqn:E; try done.
    intros _. by rewrite lookup_fs_put, decide_True. }
  unfold fetch_to.
  destruct (http_get w url) as [e|status chunks stream_err];
    [by intros [= <- <-]|].
  destruct (raises_for_status status); [by intros [= <- <-]|].
  destruct (can_open_wb _ _ _ _); [|by intros [= <- <-]].
  destruct stream_err; intros [= <- <-] Hp; by apply Hw.
Qed.

Lemma cleanup_keeps_dir w dest file s p :
  fs s !! p = Some Dir -> fs (cleanup w dest file s) !! p = Some Dir.
Proof.
  intros Hp. unfold cleanup.
  destruct (PyStr.nonempty dest && path_exists s dest && path_isfile s dest)
    eqn:Hc; [|done].
  apply andb_true_iff in Hc as [_ Hf].
  assert (dest <> p) as Hne.
  { intros ->. unfold path_isfile in Hf. by rewrite Hp in Hf. }
  destruct (path_getsize s dest =? 0)%nat, (remove_ok w dest);
    rewrite ?fs_log, ?lookup_fs_remove, ?decide_False by done; done.
Qed.

(** A call never removes a directory and never puts a file in its
    place. *)
Lemma download_keeps_dir w url base force s p :
  fs s !! p = Some Dir ->
  fs (download_package w url base force s).2 !! p = Some Dir.
Proof.
  intros Hp. destruct (urlparse_path url) as [path|] eqn:Hu.
  2: { by rewrite download_unparsed. }
  destruct (derivable path) eqn:Hd.
  2: { by destruct (download_underivable w url base force s path Hu Hd)
         as [m ->]. }
  rewrite (download_derivable _ _ _ _ _ _ Hu Hd).
  destruct (ensure_platform_dir _ _ _) as [b s1] eqn:E1.
  pose proof (ensure_dir_keeps _ _ _ _ _ _ _ E1 Hp) as Hp1.
  destruct b; [|done]. destruct (negb force && _); [done|].
  destruct (fetch_to _ _ _ _ _ _) as [o s2] eqn:E2.
  pose proof (fetch_to_keeps_dir _ _ _ _ _ _ _ _ _ E2 Hp1) as Hp2.
  destruct o; [done|]. simpl. by apply cleanup_keeps_dir.
Qed.

(** X1.  [download_package] always prints something, and it returns
    [True] exactly when none of what it printed went to stderr. *)
Theorem X1_failure_iff_stderr w url base force s :
  let r := download_package w url base force s in
  exists es,
    trace r.2 = trace s ++ es /\ es <> []
    /\ (r.1 = true <-> Forall (fun e => is_stderr e = false) es)
    /\ (r.1 = false <-> exists m, EStderr m ∈ es).
Proof.
  cbv zeta. destruct (download_trace w url base force s)
    as (es & T & Hne & _ & Hok).
  exists es. split; [done|]. split; [done|]. split; [done|].
  split.
  - intros Hf. destruct (decide (Forall (fun e => is_stderr e = false) es))
      as [Hall|Hsome].
    + apply Hok in Hall. congruence.
    + apply not_Forall_Exists in Hsome; [|intros e; apply _].
      apply Exists_exists in Hsome as ([m|m|u] & Hin & He);
        [by destruct He|by exists m|by destruct He].
  - intros (m & Hin). destruct (download_package w url base force s).1; [|done].
    assert (Forall (fun e => is_stderr e = false) es) as Hall by by apply Hok.
    rewrite Forall_forall in Hall. by specialize (Hall _ Hin).
Qed.

(** X2.  Without [--force], a destination that exists is neither
    requested again nor touched: whatever else happens in the call, no
    request is made and the path holds what it held. *)
Theorem X2_existing_file_untouched w url base s path :
  urlparse_path url = Some path ->
  path_exists s (destination base path) = true ->
  requests (download_package w url base false s).2 = requests s
  /\ fs (download_package w url base false s).2 !! destination base path
     = fs s !! destination base path.
Proof.
  intros Hu Hex. destruct (derivable path) eqn:Hd.
  2: { destruct (download_underivable w url base false s path Hu Hd)
         as [m ->]. simpl. by rewrite requests_log_stderr. }
  pose proof (destination_not_platform_dir base path Hd) as Hne.
  rewrite (download_derivable _ _ _ _ _ _ Hu Hd).
  destruct (ensure_platform_dir _ _ _) as [b s1] eqn:E1.
  destruct (ensure_dir_spec _ _ _ _ _ E1) as (R1 & F1 & M1 & _).
  destruct b; [|split; [done|by apply F1]]. rewrite (M1 _ Hex). simpl.
  rewrite requests_log_stdout. split; [done|by apply F1].
Qed.

(** X3.  When a call that made a request returns [True], the server
    answered with a status below 400 or above 599 and a body that
    arrived whole, and the destination holds the chunks of that body
    concatenated in order (unless it is a device or a pipe). *)
Theorem X3_downloaded_content w url base force s s' :
  download_package w url base force s = (true, s') ->
  requests s' = requests s ++ [url] ->
  exists path status chunks,
    urlparse_path url = Some path
    /\ http_get w url = Response status chunks None
    /\ raises_for_status status = false
    /\ (fs s' !! destination base path
        = Some (File (String.concat "" chunks))
        \/ fs s' !! destination base path = Some Special).
Proof.
  destruct (urlparse_path url) as [path|] eqn:Hu.
  2: { by rewrite download_unparsed. }
  destruct (derivable path) eqn:Hd.
  2: { by destruct (download_underivable w url base force s path Hu Hd)
         as [m ->]. }
  rewrite (download_derivable _ _ _ _ _ _ Hu Hd).
  destruct (ensure_platform_dir _ _ _) as [b s1] eqn:E1.
  destruct (ensure_dir_spec _ _ _ _ _ E1) as (R1 & _).
  destruct b; [|done]. destruct (negb force && _).
  { intros [= <-]. rewrite requests_log_stdout, R1. intros E.
    apply (f_equal length) in E. rewrite length_app in E. simpl in E. lia. }
  unfold fetch_to.
  destruct (http_get w url) as [e|status chunks stream_err]; [done|].
  destruct (raises_for_status status) eqn:Hst; [done|].
  destruct (can_open_wb _ _ _ _); [|done].
  destruct stream_err; [done|]. intros [= <-] _.
  exists path, status, chunks. repeat (split; [done|]).
  rewrite fs_log. unfold fs_write. rewrite !fs_log.
  destruct (fs s1 !! destination base path) as [[]|] eqn:E;
    rewrite ?fs_log, ?lookup_fs_put, ?decide_True by done; auto.
Qed.

(** X4.  Under [--force], when the file is on disk in its directory and
    the call fails, the file that was there is gone afterwards, unless
    the system refuses the removal. *)
Theorem X4_forced_failure_removes_file w url base s path content :
  urlparse_path url = Some path -> derivable path = true ->
  path_exists s (platform_dir base path) = true ->
  fs s !! destination base path = Some (File content) ->
  (download_package w url base true s).1 = false ->
  remove_ok w (destination base path) = true ->
  fs (download_package w url base true s).2 !! destination base path = None.
Proof.
  intros Hu Hd Hdir Hfile Hfail Hrm. revert Hfail.
  rewrite (download_derivable _ _ _ _ _ _ Hu Hd).
  rewrite ensure_dir_present by done. simpl negb. rewrite andb_false_l.
  destruct (fetch_to _ _ _ _ _ _) as [o s2] eqn:E2.
  destruct (fetch_to_spec _ _ _ _ _ _ _ _ E2) as (_ & _ & M2 & _ & P2).
  destruct o as [b|e]; simpl; [destruct P2; congruence|]. intros _.
  assert (path_isfile s (destination base path) = true) as Hf
    by (unfold path_isfile; by rewrite Hfile).
  pose proof (fetch_to_keeps_file _ _ _ _ _ _ _ _ E2 Hf) as Hf2.
  assert (path_exists s2 (destination base path) = true) as Hx2.
  { apply M2. unfold path_exists. by rewrite Hfile. }
  apply path_exists_false.
  destruct (cleanup_spec w (destination base path) (PosixPath.basename path)
              (log (EStderr (handler_message e (PosixPath.basename path) url))
                 s2)) as (_ & _ & C3).
  apply C3; [|transitivity true; [exact Hf2|symmetry; exact Hx2]|done].
  destruct (derivable_parts path Hd) as [_ [Hn _]].
  rewrite destination_spelled_path by done.
  do 3 apply nonempty_app_r. exact Hn.
Qed.

(** X5.  Once the platform directory exists or can be created, it is
    there when the call returns, whether the download succeeded or not. *)
Theorem X5_platform_dir_stays w url base force s path :
  urlparse_path url = Some path -> derivable path = true ->
  path_exists s (platform_dir base path) = true
  \/ makedirs_ok w (platform_dir base path) = true ->
  path_exists (download_package w url base force s).2 (platform_dir base path)
  = true.
Proof.
  intros Hu Hd Hdir.
  pose proof (destination_not_platform_dir base path Hd) as Hne.
  rewrite (download_derivable _ _ _ _ _ _ Hu Hd).
  destruct (ensure_platform_dir _ _ _) as [b s1] eqn:E1.
  destruct (ensure_dir_spec _ _ _ _ _ E1) as (_ & _ & _ & P1).
  destruct b.
  2: { destruct P1 as [_ P1]. destruct Hdir as [Hdir|Hdir]; [|congruence].
       rewrite ensure_dir_present in E1 by done. congruence. }
  destruct (negb force && _); [done|].
  destruct (fetch_to _ _ _ _ _ _) as [o s2] eqn:E2.
  destruct (fetch_to_spec _ _ _ _ _ _ _ _ E2) as (_ & _ & M2 & _).
  destruct o; simpl; [by apply M2|].
  destruct (cleanup_spec w (destination base path) (PosixPath.basename path)
              (log (EStderr (handler_message e (PosixPath.basename path) url))
                 s2)) as (_ & F3 & _).
  apply path_exists_true. rewrite F3 by done. rewrite fs_log.
  apply path_exists_true. by apply M2.
Qed.

(** X6.  The destination is the output directory, one directory level
    and a file name: neither name is empty or contains a slash, so the
    file lands exactly two levels below the output directory as the path
    is spelled. *)
Theorem X6_output_layout base path :
  derivable path = true ->
  exists sub file,
    (PyStr.nonempty sub = true /\ PyStr.contains "/" sub = false)
    /\ (PyStr.nonempty file = true /\ PyStr.contains "/" file = false)
    /\ platform_dir base path = PosixPath.join_prefix base +:+ sub
    /\ destination base path = platform_dir base path +:+ "/" +:+ file.
Proof.
  intros Hd. destruct (derivable_parts path Hd) as [Hs Hf].
  eexists _, _. split; [exact Hs|]. split; [exact Hf|].
  split; [by apply platform_dir_spelled|].
  rewrite destination_spelled_path, platform_dir_spelled by done.
  by rewrite app_assoc_str.
Qed.

End DownloadMore.

(* ===================================================================== *)
(** * Further properties of whole runs *)
(* ===================================================================== *)

Section RunMore.

Context `{Library}.
Implicit Types (w : World) (a : Args) (s : state) (u base p : string).




Lemma prepare_output_dir_keeps_dir w out s p :
  fs s !! p = Some Dir -> fs (prepare_output_dir w out s).2 !! p = Some Dir.
Proof.
  intros Hp. unfold prepare_output_dir.
  destruct (path_exists s out); simpl.
  - destruct (path_isdir s out); simpl; [|done].
    by destruct (access_w_ok w out).
  - destruct (makedirs_ok w out); simpl; [|done].
    destruct (access_w_ok w out); simpl;
      (destruct (decide (out = p)) as [->|Hne];
       [by rewrite lookup_insert_eq|by rewrite lookup_insert_ne]).
Qed.


Lemma setup_keeps_dir w a s p :
  fs s !! p = Some Dir -> fs (setup w a s).2 !! p = Some Dir.
Proof.
  intros Hp. unfold setup.
  pose proof (prepare_output_dir_keeps_dir w (output_dir a) s p Hp) as F.
  destruct (prepare_output_dir w (output_dir a) s) as [[[]|c] s1];
    simpl in *; [|done].
  destruct (load_lockfile_state w (lockfile a)
              (log (EStdout (MsgLoading (lockfile a))) s1)) as [F2 _].
  by rewrite F2.
Qed.



(** The requests of the loop are some of its URLs, in their order. *)
Lemma attempt_each_requests w base force urls i n s :
  exists l,
    requests (attempt_each w base force urls i n s).2 = requests s ++ l
    /\ l `sublist_of` urls.
Proof.
  revert i s. induction urls as [|u urls IH]; intros i s; simpl.
  { exists []. by rewrite app_nil_r. }
  pose proof (download_requests w u base force
                (log (EStdout (MsgProcessing i n)) s)) as R.
  destruct (download_package _ _ _ _ _) as [ok s1]. simpl in R.
  rewrite requests_log_stdout in R.
  destruct (IH (S i) s1) as (l & Rl & Hl).
  destruct (attempt_each _ _ _ _ _ _ _) as [rs s2]. simpl in *.
  destruct R as [R|R]; rewrite Rl, R.
  - exists l. split; [done|]. by apply sublist_cons.
  - exists (u :: l). rewrite <- app_assoc. split; [done|].
    by apply sublist_skip.
Qed.

(** X9.  The requests of a run are URLs of the extracted list, in the
    order of that list and each at most once; a run whose setup fails
    makes none. *)
Theorem X9_requests_of_a_run w a s :
  exists l,
    requests (main w a s).2 = requests s ++ l /\ NoDup l
    /\ match setup w a s with
       | (Done data, _) => l `sublist_of` (extract_conda_package_urls w data).1
       | (Exited _, _) => l = []
       end.
Proof.
  rewrite main_setup. destruct (setup_spec w a s) as [Rs _].
  destruct (setup w a s) as [[data|c] s0]; simpl in Rs.
  2: { exists []. rewrite app_nil_r. split; [done|]. split; [constructor|done]. }
  assert (NoDup (extract_conda_package_urls w data).1) as Hnd.
  { unfold extract_conda_package_urls. destruct (primary data) as [X out].
    destruct (set_is_empty X); [|apply NoDup_set_iter].
    destruct (data !! "environments") as [[| | | | | |d|]|];
      apply NoDup_set_iter. }
  pose proof (extract_out_stderr w data) as Herr.
  destruct (extract_conda_package_urls w data) as [urls out]. simpl in *.
  destruct (fetch_all_state w a urls (emit out (log (EStdout MsgExtracting) s0)))
    as [_ R].
  destruct (attempt_each_requests w (output_dir a) (force a) urls 1
              (length urls)
              (log (EStdout (MsgFound (length urls)))
                 (emit out (log (EStdout MsgExtracting) s0))))
    as (l & Rl & Hl).
  exists l. rewrite R, Rl, requests_log_stdout, requests_emit,
    requests_log_stdout, Rs.
  - split; [done|]. split; [|done]. by apply sublist_NoDup with urls.
  - intros e He u ->. by destruct (Herr _ He).
Qed.



Lemma attempt_each_keeps_dir w base force urls i n s p :
  fs s !! p = Some Dir ->
  fs (attempt_each w base force urls i n s).2 !! p = Some Dir.
Proof.
  revert i s. induction urls as [|u urls IH]; intros i s Hp; simpl; [done|].
  pose proof (download_keeps_dir w u base force
                (log (EStdout (MsgProcessing i n)) s) p Hp) as F.
  destruct (download_package _ _ _ _ _) as [ok s1]. simpl in F.
  specialize (IH (S i) s1 F).
  by destruct (attempt_each _ _ _ _ _ _ _) as [rs s2].
Qed.

(** X11.  Neither a call of [download_package] nor a whole run ever
    removes a directory or replaces it by a file. *)
Theorem X11_directories_persist w a s p url base force_download :
  fs s !! p = Some Dir ->
  fs (download_package w url base force_download s).2 !! p = Some Dir
  /\ fs (main w a s).2 !! p = Some Dir.
Proof.
  intros Hp. split; [by apply download_keeps_dir|].
  rewrite main_setup. pose proof (setup_keeps_dir w a s p Hp) as Fs.
  destruct (setup w a s) as [[data|c] s0]; simpl in Fs; [|done].
  destruct (extract_conda_package_urls w data) as [urls out]. simpl.
  destruct (fetch_all_state w a urls (emit out (log (EStdout MsgExtracting) s0)))
    as [F _].
  rewrite F. by apply attempt_each_keeps_dir.
Qed.

Lemma count_outcomes (rs : list (string * bool)) :
  length (List.filter snd rs)
  + length (List.filter (fun r => negb r.2) rs) = length rs.
Proof.
  induction rs as [|[u []] rs IH]; simpl; lia.
Qed.

(** X12.  With at least one URL, the run ends with the summary and one
    closing line.  The summary names the number of URLs, the number of
    attempts that returned [True] and the number that returned [False];
    the two add up to the first; and the closing line and the exit code
    say 1 exactly when the number of failures is not zero. *)
Theorem X12_summary_adds_up w a conda_urls s :
  conda_urls <> [] ->
  let n := length conda_urls in
  let attempts :=
    attempt_each w (output_dir a) (force a) conda_urls 1 n
      (log (EStdout (MsgFound n)) s) in
  let success_count := length (List.filter snd attempts.1) in
  let failure_count := length (List.filter (fun r => negb r.2) attempts.1) in
  success_count + failure_count = n
  /\ fetch_all w a conda_urls s
     = if (0 <? failure_count)%nat then
         (1, log (EStderr MsgSomeFailed)
               (log (EStdout (MsgSummary n success_count failure_count))
                  attempts.2))
       else
         (0, log (EStdout MsgAllProcessed)
               (log (EStdout (MsgSummary n success_count failure_count))
                  attempts.2)).
Proof.
  intros Hne. cbv zeta. split.
  - rewrite count_outcomes.
    pose proof (attempt_each_urls w (output_dir a) (force a) conda_urls 1
                  (length conda_urls)
                  (log (EStdout (MsgFound (length conda_urls))) s)) as Hu.
    apply (f_equal length) in Hu. by rewrite length_fmap in Hu.
  - unfold fetch_all. destruct conda_urls as [|u urls]; [done|].
    rewrite process_urls_attempts. simpl plus. reflexivity.
Qed.

Lemma progress_lines_app s s' es :
  trace s' = trace s ++ es ->
  Forall (fun e => forall i n, e <> EStdout (MsgProcessing i n)) es ->
  progress_lines s' = progress_lines s.
Proof.
  intros T Hq. unfold progress_lines. rewrite T, omap_app. clear T.
  rewrite <- (app_nil_r (omap _ (trace s))) at 2. f_equal.
  induction Hq as [|e es He _ IH]; [done|].
  destruct e as [m|m|u]; [destruct m|..]; simpl; try exact IH.
  destruct (He _ _ eq_refl).
Qed.

(** X13.  The loop prints one progress line per URL, numbered upwards
    from its starting number, and no other part of the processing of a
    URL prints such a line. *)
Theorem X13_progress_numbering w base force_download conda_urls i n
    success_count failure_count s :
  progress_lines
    (process_urls w base force_download conda_urls i n success_count
       failure_count s).2
  = progress_lines s ++ ((fun k => (k, n)) <$> seq i (length conda_urls)).
Proof.
  rewrite process_urls_attempts. simpl. clear success_count failure_count.
  revert i s. induction conda_urls as [|u urls IH]; intros i s; simpl.
  { by rewrite app_nil_r. }
  destruct (download_trace w u base force_download
              (log (EStdout (MsgProcessing i n)) s)) as (es & T & _ & Hq & _).
  pose proof (progress_lines_app _ _ _ T Hq) as P.
  destruct (download_package _ _ _ _ _) as [ok s1]. simpl in P.
  specialize (IH (S i) s1).
  destruct (attempt_each _ _ _ _ _ _ _) as [rs s2]. simpl in *.
  rewrite IH, P. unfold progress_lines at 1. rewrite trace_log, omap_app.
  simpl. by rewrite <- app_assoc.
Qed.

End RunMore.

(* ===================================================================== *)
(** * Further properties of the extraction *)
(* ===================================================================== *)

Section ExtractMore.

Context `{Library}.
Implicit Types (w : World) (data : gmap string yaml).



(** X15.  The notice that no URL was found is printed exactly when the
    returned list is empty; and then a run that passed the setup prints
    that there is nothing to do and exits 0 at once, without a summary,
    a request or a change on disk. *)
Theorem X15_nothing_found w data :
  (EStderr MsgNoUrlsFound ∈ (extract_conda_package_urls w data).2
   <-> (extract_conda_package_urls w data).1 = [])
  /\ (forall a s s0,
        setup w a s = (Done data, s0) ->
        (extract_conda_package_urls w data).1 = [] ->
        main w a s
        = (0, log (EStdout MsgNothingToDo)
                (emit (extract_conda_package_urls w data).2
                   (log (EStdout MsgExtracting) s0)))).
Proof.
  split.
  - assert (EStderr MsgNoUrlsFound ∉ (primary data).2) as Hnot.
    { rewrite primary_spec. simpl. rewrite list_elem_of_fmap.
      by intros (v & ? & _). }
    destruct (decide ((primary data).1 = ∅)) as [He|Hne].
    2: { rewrite extract_primary by done. simpl. split; [done|].
         intros E. by apply set_iter_nil in E. }
    destruct (data !! "environments") as [v|] eqn:Henv.
    2: { rewrite extract_nothing by (done || congruence). simpl.
         split; [done|]. intros _. apply elem_of_app. right.
         apply list_elem_of_here. }
    destruct (mapping_or_not v) as [[d ->]|Hnd].
    + rewrite (extract_fallback w data d) by done. simpl.
      rewrite set_iter_nil. unfold set_is_empty.
      destruct (decide (fallback d = ∅)) as [Hf|Hf].
      * rewrite bool_decide_eq_true_2 by done. split; [done|]. intros _.
        apply elem_of_app. right. apply list_elem_of_here.
      * rewrite bool_decide_eq_false_2 by done. split; [|done].
        rewrite app_nil_r, elem_of_app, list_elem_of_singleton.
        by intros [?|?].
    + rewrite extract_nothing; [|done|].
      2: { intros d Hd. apply Hnd. exists d. congruence. }
      simpl. split; [done|]. intros _. apply elem_of_app. right.
      apply list_elem_of_here.
  - intros a s s0 Hs He. rewrite main_setup, Hs, He. reflexivity.
Qed.

End ExtractMore.

Section CompleteMirror.

Context `{Library}.

(** X16.  When a run exits 0, every URL the document yields has a
    derivable destination, and that destination and its directory are on
    disk in the state the run leaves. *)
Theorem X16_exit_zero_means_mirrored (w : World) (a : Args) (s s0 : state)
    (data : gmap string yaml) (u : string) :
  setup w a s = (Done data, s0) -> (main w a s).1 = 0 ->
  discovered data u ->
  exists path,
    urlparse_path u = Some path /\ derivable path = true
    /\ path_exists (main w a s).2 (platform_dir (output_dir a) path) = true
    /\ path_exists (main w a s).2 (destination (output_dir a) path) = true.
Proof.
  intros Hs Hexit Hu.
  pose proof (clean_run_caches w a s s0 data u Hs Hexit Hu) as Hc.
  unfold cached in Hc. destruct (urlparse_path u) as [path|]; [|done].
  apply andb_true_iff in Hc as [[Hd Hp]%andb_true_iff Hf]. by exists path.
Qed.

End CompleteMirror.

Section ChecksMore.

#[local] Existing Instance Ex.py.

Lemma X2_witness :
  let path := "/linux-64/foo-1.0-0.conda" in
  urlparse_path Ex.foo_url = Some path
  /\ path_exists Ex.mirrored_state (destination "out" path) = true
  /\ requests
       (download_package Ex.w_404 Ex.foo_url "out" false Ex.mirrored_state).2
     = requests Ex.mirrored_state
  /\ fs (download_package Ex.w_404 Ex.foo_url "out" false Ex.mirrored_state).2
       !! destination "out" path
     = fs Ex.mirrored_state !! destination "out" path.
Proof.
  cbv zeta.
  assert (urlparse_path Ex.foo_url = Some "/linux-64/foo-1.0-0.conda") as H1
    by (vm_compute; reflexivity).
  assert (path_exists Ex.mirrored_state
            (destination "out" "/linux-64/foo-1.0-0.conda") = true) as H2
    by (vm_compute; reflexivity).
  split; [exact H1|]. split; [exact H2|].
  exact (X2_existing_file_untouched Ex.w_404 _ _ _ _ H1 H2).
Defined.

Lemma X3_witness :
  let r := download_package Ex.w_ok Ex.foo_url "out" false Ex.fresh_state in
  r = (true, r.2)
  /\ requests r.2 = requests Ex.fresh_state ++ [Ex.foo_url]
  /\ exists path status chunks,
       urlparse_path Ex.foo_url = Some path
       /\ http_get Ex.w_ok Ex.foo_url = Response status chunks None
       /\ raises_for_status status = false
       /\ (fs r.2 !! destination "out" path
           = Some (File (String.concat "" chunks))
           \/ fs r.2 !! destination "out" path = Some Special).
Proof.
  cbv zeta.
  assert (download_package Ex.w_ok Ex.foo_url "out" false Ex.fresh_state
          = (true,
             (download_package Ex.w_ok Ex.foo_url "out" false
                Ex.fresh_state).2)) as H1 by (vm_compute; reflexivity).
  assert (requests
            (download_package Ex.w_ok Ex.foo_url "out" false Ex.fresh_state).2
          = requests Ex.fresh_state ++ [Ex.foo_url]) as H2
    by (vm_compute; reflexivity).
  split; [exact H1|]. split; [exact H2|].
  exact (X3_downloaded_content Ex.w_ok _ _ _ _ _ H1 H2).
Defined.

Lemma X4_witness :
  let path := "/linux-64/foo-1.0-0.conda" in
  urlparse_path Ex.foo_url = Some path /\ derivable path = true
  /\ path_exists Ex.mirrored_state (platform_dir "out" path) = true
  /\ fs Ex.mirrored_state !! destination "out" path = Some (File "complete")
  /\ (download_package Ex.w_404 Ex.foo_url "out" true Ex.mirrored_state).1
     = false
  /\ remove_ok Ex.w_404 (destination "out" path) = true
  /\ fs (download_package Ex.w_404 Ex.foo_url "out" true Ex.mirrored_state).2
       !! destination "out" path = None.
Proof.
  cbv zeta.
  assert (urlparse_path Ex.foo_url = Some "/linux-64/foo-1.0-0.conda") as H1
    by (vm_compute; reflexivity).
  assert (derivable "/linux-64/foo-1.0-0.conda" = true) as H2
    by (vm_compute; reflexivity).
  assert (path_exists Ex.mirrored_state
            (platform_dir "out" "/linux-64/foo-1.0-0.conda") = true) as H3
    by (vm_compute; reflexivity).
  assert (fs Ex.mirrored_state !! destination "out" "/linux-64/foo-1.0-0.conda"
          = Some (File "complete")) as H4 by (vm_compute; reflexivity).
  assert ((download_package Ex.w_404 Ex.foo_url "out" true
             Ex.mirrored_state).1 = false) as H5 by (vm_compute; reflexivity).
  assert (remove_ok Ex.w_404 (destination "out" "/linux-64/foo-1.0-0.conda")
          = true) as H6 by (vm_compute; reflexivity).
  repeat (split; [assumption|]).
  exact (X4_forced_failure_removes_file Ex.w_404 _ _ _ _ _ H1 H2 H3 H4 H5 H6).
Defined.

Lemma X5_witness :
  let path := "/linux-64/foo-1.0-0.conda" in
  urlparse_path Ex.foo_url = Some path /\ derivable path = true
  /\ makedirs_ok Ex.w_404 (platform_dir "out" path) = true
  /\ path_exists
       (download_package Ex.w_404 Ex.foo_url "out" false Ex.fresh_state).2
       (platform_dir "out" path) = true.
Proof.
  cbv zeta.
  assert (urlparse_path Ex.foo_url = Some "/linux-64/foo-1.0-0.conda") as H1
    by (vm_compute; reflexivity).
  assert (derivable "/linux-64/foo-1.0-0.conda" = true) as H2
    by (vm_compute; reflexivity).
  assert (makedirs_ok Ex.w_404 (platform_dir "out" "/linux-64/foo-1.0-0.conda")
          = true) as H3 by reflexivity.
  repeat (split; [assumption|]).
  exact (X5_platform_dir_stays Ex.w_404 _ _ _ _ _ H1 H2 (or_intror H3)).
Defined.

Lemma X6_witness :
  let path := "/conda-forge/linux-64/foo-1.0-0.conda" in
  derivable path = true
  /\ exists sub file,
       (PyStr.nonempty sub = true /\ PyStr.contains "/" sub = false)
       /\ (PyStr.nonempty file = true /\ PyStr.contains "/" file = false)
       /\ platform_dir "out" path = PosixPath.join_prefix "out" +:+ sub
       /\ destination "out" path = platform_dir "out" path +:+ "/" +:+ file.
Proof.
  cbv zeta.
  assert (derivable "/conda-forge/linux-64/foo-1.0-0.conda" = true) as H1
    by (vm_compute; reflexivity).
  split; [exact H1|]. exact (X6_output_layout "out" _ H1).
Defined.


Lemma X11_witness :
  fs Ex.mirrored_state !! "out/linux-64" = Some Dir
  /\ fs (download_package Ex.w_404 Ex.foo_url "out" true Ex.mirrored_state).2
       !! "out/linux-64" = Some Dir
  /\ fs (main Ex.w_404 Ex.args_force Ex.mirrored_state).2 !! "out/linux-64"
     = Some Dir.
Proof.
  assert (fs Ex.mirrored_state !! "out/linux-64" = Some Dir) as H1
    by (vm_compute; reflexivity).
  split; [exact H1|].
  exact (X11_directories_persist Ex.w_404 Ex.args_force Ex.mirrored_state
           "out/linux-64" Ex.foo_url "out" true H1).
Defined.

Lemma X12_witness :
  let conda_urls := [Ex.foo_url; Ex.flat_url] in
  let attempts :=
    attempt_each Ex.w_ok "out" false conda_urls 1 2
      (log (EStdout (MsgFound 2)) Ex.fresh_state) in
  let success_count := length (List.filter snd attempts.1) in
  let failure_count := length (List.filter (fun r => negb r.2) attempts.1) in
  conda_urls <> []
  /\ success_count + failure_count = 2
  /\ fetch_all Ex.w_ok Ex.args_plain conda_urls Ex.fresh_state
     = if (0 <? failure_count)%nat then
         (1, log (EStderr MsgSomeFailed)
               (log (EStdout (MsgSummary 2 success_count failure_count))
                  attempts.2))
       else
         (0, log (EStdout MsgAllProcessed)
               (log (EStdout (MsgSummary 2 success_count failure_count))
                  attempts.2)).
Proof.
  cbv zeta.
  assert ([Ex.foo_url; Ex.flat_url] <> []) as H1 by discriminate.
  split; [exact H1|].
  exact (X12_summary_adds_up Ex.w_ok Ex.args_plain _ Ex.fresh_state H1).
Defined.

Lemma X16_witness :
  let run := main Ex.w_ok Ex.args_plain Ex.fresh_state in
  setup Ex.w_ok Ex.args_plain Ex.fresh_state
  = (Done Ex.doc_foo, (setup Ex.w_ok Ex.args_plain Ex.fresh_state).2)
  /\ run.1 = 0 /\ discovered Ex.doc_foo Ex.foo_url
  /\ exists path,
       urlparse_path Ex.foo_url = Some path /\ derivable path = true
       /\ path_exists run.2 (platform_dir "out" path) = true
       /\ path_exists run.2 (destination "out" path) = true.
Proof.
  cbv zeta.
  assert (setup Ex.w_ok Ex.args_plain Ex.fresh_state
          = (Done Ex.doc_foo, (setup Ex.w_ok Ex.args_plain Ex.fresh_state).2))
    as H1 by (vm_compute; reflexivity).
  assert ((main Ex.w_ok Ex.args_plain Ex.fresh_state).1 = 0) as H2
    by (vm_compute; reflexivity).
  assert (discovered Ex.doc_foo Ex.foo_url) as H3.
  { apply (elem_of_extract Ex.w_ok).
    assert ((extract_conda_package_urls Ex.w_ok Ex.doc_foo).1 = [Ex.foo_url])
      as -> by (vm_compute; reflexivity).
    apply list_elem_of_here. }
  split; [exact H1|]. split; [exact H2|]. split; [exact H3|].
  exact (X16_exit_zero_means_mirrored Ex.w_ok Ex.args_plain Ex.fresh_state _
           Ex.doc_foo Ex.foo_url H1 H2 H3).
Defined.


End ChecksMore.
